(** * Podman AI Lab inference adapter: parameter marshalling and dispatch

    A shallow embedding of [src/podman_ai_lab_stack/podman_ai_lab.py].
    The adapter translates the host framework's requests into the wire
    parameters of the Ollama client, calls the client, and hands the
    answer to the host's post-processing.

    Python values that travel inside dictionaries are embedded in
    [pyval]; dictionaries are finite maps with string keys.  Exceptions
    are an explicit [result] type; transport calls are recorded in a
    trace that is threaded through the operations that talk to the
    client. *)

From Stdlib Require Import ZArith String List Bool.
From Stdlib Require Import PrimFloat.
From stdpp Require Import gmap strings list fin_maps.

Local Open Scope string_scope.
Local Set Warnings "-register-all".

(** ** Python values *)

Inductive pyval : Type :=
| VNone
| VBool (b : bool)
| VInt (z : Z)
| VFloat (f : PrimFloat.float)
| VStr (s : string)
| VList (l : list pyval)
| VDict (d : gmap string pyval).

(** [v is None] *)
Definition is_none (v : pyval) : bool :=
  match v with VNone => true | _ => false end.

(** Truth value of a [str]: only the empty string is falsy. *)
Definition str_truthy (s : string) : bool :=
  match s with EmptyString => false | String _ _ => true end.

(** An [Optional[bool]] stored in a dictionary. *)
Definition of_opt_bool (o : option bool) : pyval :=
  match o with Some b => VBool b | None => VNone end.

(** Truth value of an [Optional[bool]]. *)
Definition opt_truthy (o : option bool) : bool :=
  match o with Some b => b | None => false end.

(** ** Exceptions *)

Inductive exn : Type :=
| AssertionError (msg : string)
| NotImplementedError (msg : string)
| ValueError (msg : string)
| TypeError (msg : string)
| ConnectionError (msg : string)
| RuntimeError (msg : string) (cause : option exn)
| OtherError (cls msg : string).

(** The clause [except ConnectionError]. *)
Definition is_ConnectionError (e : exn) : bool :=
  match e with ConnectionError _ => true | _ => false end.

Inductive result (A : Type) : Type :=
| Ok (a : A)
| Raise (e : exn).
Arguments Ok {A} a.
Arguments Raise {A} e.

#[export] Instance result_ret : MRet result := fun _ a => Ok a.
#[export] Instance result_bind : MBind result := fun _ _ f m =>
  match m with Ok a => f a | Raise e => Raise e end.

(** [[await f(x) for x in l]]: left to right, the first exception ends
    the comprehension. *)
Fixpoint await_all {A B : Type} (f : A -> result B) (l : list A) : result (list B) :=
  match l with
  | [] => Ok []
  | x :: l' => y ← f x; ys ← await_all f l'; Ok (y :: ys)
  end.

(** ** Streams and the transport trace *)

(** A finished run of an asynchronous generator: the items it yielded
    and, if it ended by an exception, that exception. *)
Record stream (A : Type) : Type := Stream {
  items : list A;
  failure : option exn
}.
Arguments Stream {A} items failure.
Arguments items {A} s.
Arguments failure {A} s.

Definition stream_map {A B : Type} (f : A -> B) (s : stream A) : stream B :=
  Stream (f <$> items s) (failure s).

(** A generator that raises before its first [yield]. *)
Definition stream_raise {A : Type} (e : exn) : stream A := Stream [] (Some e).

(** What the client returns: one response, or an iterator of responses. *)
Inductive reply (R : Type) : Type :=
| Single (r : R)
| Streamed (s : stream R).
Arguments Single {R} r.
Arguments Streamed {R} s.

Definition reply_map {R R' : Type} (f : R -> R') (r : reply R) : reply R' :=
  match r with
  | Single r => Single (f r)
  | Streamed s => Streamed (stream_map f s)
  end.

(** Requests issued to the transport client, in order. *)
Inductive call : Type :=
| ListCall (host : string)
| GenerateCall (host : string) (params : gmap string pyval)
| ChatCall (host : string) (params : gmap string pyval).

(** Code that may call the transport: the trace of calls is threaded. *)
Definition IO (A : Type) : Type := list call -> result A * list call.

#[export] Instance IO_ret : MRet IO := fun _ a t => (Ok a, t).
#[export] Instance IO_bind : MBind IO := fun _ _ f m t =>
  match m t with
  | (Ok a, t') => f a t'
  | (Raise e, t') => (Raise e, t')
  end.

Definition lift {A : Type} (r : result A) : IO A := fun t => (r, t).

(** An asynchronous generator object: nothing runs until it is consumed;
    consuming it to the end gives the stream and extends the trace. *)
Definition generator (A : Type) : Type := list call -> stream A * list call.

(** ** Wire responses (Ollama client) *)

Record GenerateResponse : Type := {
  gen_done : bool;
  gen_done_reason : option string;
  gen_response : string
}.

Record ChatResponse : Type := {
  chat_done : bool;
  chat_done_reason : option string;
  chat_message_content : string
}.

(** ** OpenAI-compatible intermediate shape (host utility types) *)

Record OpenAICompatCompletionChoice : Type := {
  finish_reason : option string;
  text : string
}.

Record OpenAICompatCompletionResponse : Type := {
  choices : list OpenAICompatCompletionChoice
}.

(** ** Host data types *)

(** Types of the host framework that the adapter only passes along. *)
Class HostTypes : Type := {
  SamplingParams : Type;
  LogProbConfig : Type;
  ToolDefinition : Type;
  ToolConfig : Type;
  ToolChoice : Type;
  ToolPromptFormat : Type;
  Image : Type;
  Model : Type;
  CompletionResponse : Type;
  CompletionResponseStreamChunk : Type;
  ChatCompletionResponse : Type;
  ChatCompletionResponseStreamChunk : Type;
  TextTruncation : Type;
  EmbeddingTaskType : Type;
  EmbeddingsResponse : Type
}.

Section DataModel.
Context `{HT : HostTypes}.

Inductive InterleavedContentItem : Type :=
| ImageContentItem (image : Image)
| TextContentItem (text : string).

(** [InterleavedContent = str | InterleavedContentItem | List[InterleavedContentItem]] *)
Inductive InterleavedContent : Type :=
| ContentStr (s : string)
| ContentItem (c : InterleavedContentItem)
| ContentList (cs : list InterleavedContentItem).

Record Message : Type := {
  role : string;
  content : InterleavedContent
}.

(** [fmt.json_schema] is read only when [fmt.type] is ["json_schema"]. *)
Record ResponseFormat : Type := {
  fmt_type : string;
  fmt_json_schema : gmap string pyval
}.

Record CompletionRequest : Type := {
  comp_model : string;
  comp_content : InterleavedContent;
  comp_sampling_params : SamplingParams;
  comp_response_format : option ResponseFormat;
  comp_stream : option bool;
  comp_logprobs : option LogProbConfig
}.

Record ChatCompletionRequest : Type := {
  chat_model : string;
  chat_messages : list Message;
  chat_sampling_params : SamplingParams;
  chat_tools : list ToolDefinition;
  chat_stream : option bool;
  chat_logprobs : option LogProbConfig;
  chat_response_format : option ResponseFormat;
  chat_tool_config : option ToolConfig
}.

(** [Union[ChatCompletionRequest, CompletionRequest]] *)
Inductive Request : Type :=
| ChatRequest (r : ChatCompletionRequest)
| RawRequest (r : CompletionRequest).

Definition request_model (request : Request) : string :=
  match request with
  | ChatRequest r => chat_model r
  | RawRequest r => comp_model r
  end.

Definition request_sampling_params (request : Request) : SamplingParams :=
  match request with
  | ChatRequest r => chat_sampling_params r
  | RawRequest r => comp_sampling_params r
  end.

Definition request_response_format (request : Request) : option ResponseFormat :=
  match request with
  | ChatRequest r => chat_response_format r
  | RawRequest r => comp_response_format r
  end.

Definition request_stream (request : Request) : option bool :=
  match request with
  | ChatRequest r => chat_stream r
  | RawRequest r => comp_stream r
  end.
End DataModel.

(** ** External collaborators *)

(** Utilities of the host framework.  The ones the adapter awaits may
    raise; the synchronous ones are plain functions. *)
Class Host `{HT : HostTypes} : Type := {
  default_sampling_params : SamplingParams;
  get_sampling_options : SamplingParams -> gmap string pyval;
  request_has_media : Request -> bool;
  chat_completion_request_to_prompt : ChatCompletionRequest -> string -> result string;
  completion_request_to_prompt : CompletionRequest -> result string;
  convert_image_content_to_url :
    Image -> forall (download include_format : bool), result string;
  process_completion_response :
    OpenAICompatCompletionResponse -> CompletionResponse;
  process_completion_stream_response :
    stream OpenAICompatCompletionResponse -> stream CompletionResponseStreamChunk;
  process_chat_completion_response :
    OpenAICompatCompletionResponse -> ChatCompletionRequest -> ChatCompletionResponse;
  process_chat_completion_stream_response :
    stream OpenAICompatCompletionResponse -> ChatCompletionRequest ->
    stream ChatCompletionResponseStreamChunk;
  model_store_get_model : string -> result Model;
  provider_resource_id : Model -> string
}.

(** The Ollama client, as a function of the host address and the
    keyword arguments. *)
Class Transport : Type := {
  client_list : string -> result unit;
  client_generate : string -> gmap string pyval -> result (reply GenerateResponse);
  client_chat : string -> gmap string pyval -> result (reply ChatResponse)
}.

(** ** The adapter *)

Record PodmanAILabInferenceAdapter : Type := { url : string }.

(** What [completion] and [chat_completion] return: with [stream] set,
    a generator that has not run yet; otherwise the finished response. *)
Inductive outcome (C R : Type) : Type :=
| Lazy (g : generator C)
| Done (r : R).
Arguments Lazy {C R} g.
Arguments Done {C R} r.

Section Adapter.
Context `{H : Host} `{T : Transport}.

(** *** [convert_message_to_openai_dict_for_podman_ai_lab] *)

(** The inner [_convert_content]: [content] is a [str] or a content
    item.  The [assert isinstance(text, str)] of the text branch holds
    for both shapes that reach it. *)
Definition _convert_content (message : Message)
    (content : string + InterleavedContentItem) : result (gmap string pyval) :=
  match content with
  | inr (ImageContentItem image) =>
      u ← convert_image_content_to_url image true false;
      Ok (<["images" := VList [VStr u]]> (<["role" := VStr (role message)]> ∅))
  | inr (TextContentItem text) =>
      Ok (<["content" := VStr text]> (<["role" := VStr (role message)]> ∅))
  | inl text =>
      Ok (<["content" := VStr text]> (<["role" := VStr (role message)]> ∅))
  end.

Definition convert_message_to_openai_dict_for_podman_ai_lab (message : Message)
    : result (list (gmap string pyval)) :=
  match content message with
  | ContentList cs => await_all (fun c => _convert_content message (inr c)) cs
  | ContentItem c => d ← _convert_content message (inr c); Ok [d]
  | ContentStr s => d ← _convert_content message (inl s); Ok [d]
  end.

(** *** [_get_params] *)

Definition _get_params (request : Request) : result (gmap string pyval) :=
  let sampling_options := get_sampling_options (request_sampling_params request) in
  let sampling_options :=
    match sampling_options !! "max_tokens" with
    | Some v =>
        if is_none v then sampling_options
        else <["num_predict" := v]> sampling_options
    | None => sampling_options
    end in
  let input_dict : gmap string pyval := ∅ in
  let media_present := request_has_media request in
  let llama_model := request_model request in
  input_dict ←
    match request with
    | ChatRequest r =>
        if media_present || negb (str_truthy llama_model) then
          contents ← await_all convert_message_to_openai_dict_for_podman_ai_lab
                       (chat_messages r);
          Ok (<["messages" := VList (VDict <$> concat contents)]> input_dict)
        else
          prompt ← chat_completion_request_to_prompt r llama_model;
          Ok (<["prompt" := VStr prompt]> (<["raw" := VBool true]> input_dict))
    | RawRequest r =>
        if media_present then
          Raise (AssertionError "Ollama does not support media for Completion requests")
        else
          prompt ← completion_request_to_prompt r;
          Ok (<["raw" := VBool true]> (<["prompt" := VStr prompt]> input_dict))
    end;
  input_dict ←
    match request_response_format request with
    | Some fmt =>
        if String.eqb (fmt_type fmt) "json_schema" then
          Ok (<["format" := VDict (fmt_json_schema fmt)]> input_dict)
        else if String.eqb (fmt_type fmt) "grammar" then
          Raise (NotImplementedError "Grammar response format is not supported")
        else
          Raise (ValueError ("Unknown response format type: " ++ fmt_type fmt))
    | None => Ok input_dict
    end;
  Ok (<["stream" := of_opt_bool (request_stream request)]>
        (<["options" := VDict sampling_options]>
           (input_dict ∪ <["model" := VStr (request_model request)]> ∅))).

(** *** Transport calls through [self.client] *)

Definition do_list (self : PodmanAILabInferenceAdapter) : IO unit :=
  fun t => (client_list (url self), (t ++ [ListCall (url self)])%list).

Definition do_generate (self : PodmanAILabInferenceAdapter)
    (params : gmap string pyval) : IO (reply GenerateResponse) :=
  fun t => (client_generate (url self) params, (t ++ [GenerateCall (url self) params])%list).

Definition do_chat (self : PodmanAILabInferenceAdapter)
    (params : gmap string pyval) : IO (reply ChatResponse) :=
  fun t => (client_chat (url self) params, (t ++ [ChatCall (url self) params])%list).

(** *** [initialize] *)

Definition initialize (self : PodmanAILabInferenceAdapter) : IO unit :=
  fun t =>
    match do_list self t with
    | (Ok _, t') => (Ok tt, t')
    | (Raise e, t') =>
        if is_ConnectionError e then
          (Raise (RuntimeError
                    "Podman AI Lab Server is not running, start it using Podman Desktop"
                    (Some e)), t')
        else (Raise e, t')
    end.

(** *** Raw completion *)

Definition choice_of_generate (r : GenerateResponse) : OpenAICompatCompletionChoice :=
  {| finish_reason := if gen_done r then gen_done_reason r else None;
     text := gen_response r |}.

Definition choice_of_chat (r : ChatResponse) : OpenAICompatCompletionChoice :=
  {| finish_reason := if chat_done r then chat_done_reason r else None;
     text := chat_message_content r |}.

Definition wrap (choice : OpenAICompatCompletionChoice) : OpenAICompatCompletionResponse :=
  {| choices := [choice] |}.

(** The inner generator of [_stream_completion]. *)
Definition _generate_and_convert_to_openai_compat
    (self : PodmanAILabInferenceAdapter) (params : gmap string pyval)
    : generator OpenAICompatCompletionResponse :=
  fun t =>
    match do_generate self params t with
    | (Raise e, t') => (stream_raise e, t')
    | (Ok (Single _), t') =>
        (stream_raise (TypeError "'async for' requires an object with __aiter__ method"), t')
    | (Ok (Streamed s), t') =>
        (stream_map (fun chunk => wrap (choice_of_generate chunk)) s, t')
    end.

Definition _stream_completion (self : PodmanAILabInferenceAdapter)
    (request : CompletionRequest) : generator CompletionResponseStreamChunk :=
  fun t =>
    match _get_params (RawRequest request) with
    | Raise e => (stream_raise e, t)
    | Ok params =>
        let '(s, t') := _generate_and_convert_to_openai_compat self params t in
        (process_completion_stream_response s, t')
    end.

Definition _nonstream_completion (self : PodmanAILabInferenceAdapter)
    (request : CompletionRequest) : IO CompletionResponse :=
  params ← lift (_get_params (RawRequest request));
  r ← do_generate self params;
  match r with
  | Single r =>
      let choice := choice_of_generate r in
      let response := wrap choice in
      mret (process_completion_response response)
  | Streamed _ => lift (Raise (TypeError "'async_generator' object is not subscriptable"))
  end.

Definition completion (self : PodmanAILabInferenceAdapter)
    (model_id : string) (content : InterleavedContent)
    (sampling_params : option SamplingParams)
    (response_format : option ResponseFormat)
    (stream : option bool) (logprobs : option LogProbConfig)
    : IO (outcome CompletionResponseStreamChunk CompletionResponse) :=
  let sampling_params := default default_sampling_params sampling_params in
  model ← lift (model_store_get_model model_id);
  let request :=
    {| comp_model := provider_resource_id model;
       comp_content := content;
       comp_sampling_params := sampling_params;
       comp_response_format := response_format;
       comp_stream := stream;
       comp_logprobs := logprobs |} in
  if opt_truthy stream then mret (Lazy (_stream_completion self request))
  else r ← _nonstream_completion self request; mret (Done r).
(** *** Chat completion *)

(** [client.chat] when the parameters carry [messages], [client.generate]
    otherwise; the answer keeps its shape. *)
Definition chat_or_generate (self : PodmanAILabInferenceAdapter)
    (params : gmap string pyval) : IO (reply (ChatResponse + GenerateResponse)) :=
  if bool_decide (is_Some (params !! "messages")) then
    r ← do_chat self params; mret (reply_map inl r)
  else
    r ← do_generate self params; mret (reply_map inr r).

(** The branch on ["message" in r]. *)
Definition choice_of_response (r : ChatResponse + GenerateResponse)
    : OpenAICompatCompletionChoice :=
  match r with
  | inl r => choice_of_chat r
  | inr r => choice_of_generate r
  end.

Definition _nonstream_chat_completion (self : PodmanAILabInferenceAdapter)
    (request : ChatCompletionRequest) : IO ChatCompletionResponse :=
  params ← lift (_get_params (ChatRequest request));
  r ← chat_or_generate self params;
  match r with
  | Single r =>
      let choice := choice_of_response r in
      let response := wrap choice in
      mret (process_chat_completion_response response request)
  | Streamed _ => lift (Raise (TypeError "argument of type 'async_generator' is not iterable"))
  end.

(** The inner generator of [_stream_chat_completion]. *)
Definition _generate_and_convert_to_openai_compat_chat
    (self : PodmanAILabInferenceAdapter) (params : gmap string pyval)
    : generator OpenAICompatCompletionResponse :=
  fun t =>
    match chat_or_generate self params t with
    | (Raise e, t') => (stream_raise e, t')
    | (Ok (Single _), t') =>
        (stream_raise (TypeError "'async for' requires an object with __aiter__ method"), t')
    | (Ok (Streamed s), t') =>
        (stream_map (fun chunk => wrap (choice_of_response chunk)) s, t')
    end.

Definition _stream_chat_completion (self : PodmanAILabInferenceAdapter)
    (request : ChatCompletionRequest) : generator ChatCompletionResponseStreamChunk :=
  fun t =>
    match _get_params (ChatRequest request) with
    | Raise e => (stream_raise e, t)
    | Ok params =>
        let '(s, t') := _generate_and_convert_to_openai_compat_chat self params t in
        (process_chat_completion_stream_response s request, t')
    end.

Definition chat_completion (self : PodmanAILabInferenceAdapter)
    (model_id : string) (messages : list Message)
    (sampling_params : option SamplingParams)
    (response_format : option ResponseFormat)
    (tools : option (list ToolDefinition))
    (tool_choice : option ToolChoice)
    (tool_prompt_format : option ToolPromptFormat)
    (stream : option bool) (logprobs : option LogProbConfig)
    (tool_config : option ToolConfig)
    : IO (outcome ChatCompletionResponseStreamChunk ChatCompletionResponse) :=
  let sampling_params := default default_sampling_params sampling_params in
  let request :=
    {| chat_model := model_id;
       chat_messages := messages;
       chat_sampling_params := sampling_params;
       chat_tools := default [] tools;
       chat_stream := stream;
       chat_logprobs := logprobs;
       chat_response_format := response_format;
       chat_tool_config := tool_config |} in
  if opt_truthy stream then mret (Lazy (_stream_chat_completion self request))
  else r ← _nonstream_chat_completion self request; mret (Done r).

(** *** [embeddings] *)

Definition embeddings (self : PodmanAILabInferenceAdapter)
    (model_id : string)
    (contents : list string + list InterleavedContentItem)
    (text_truncation : option TextTruncation)
    (output_dimension : option Z)
    (task_type : option EmbeddingTaskType) : IO EmbeddingsResponse :=
  lift (Raise (NotImplementedError "embeddings endpoint is not implemented")).
End Adapter.

(** * Auxiliary definitions for the statements *)

Section Stages.
Context `{H : Host} `{T : Transport}.

(** The stages of [_get_params], named for the proofs:
    [_get_params_stages] below shows that [_get_params] is their
    composition. *)

Definition remap_options (o : gmap string pyval) : gmap string pyval :=
  match o !! "max_tokens" with
  | Some v => if is_none v then o else <["num_predict" := v]> o
  | None => o
  end.

Definition input_stage (request : Request) : result (gmap string pyval) :=
  match request with
  | ChatRequest r =>
      if request_has_media request || negb (str_truthy (request_model request)) then
        contents ← await_all convert_message_to_openai_dict_for_podman_ai_lab
                     (chat_messages r);
        Ok (<["messages" := VList (VDict <$> concat contents)]> ∅)
      else
        prompt ← chat_completion_request_to_prompt r (request_model request);
        Ok (<["prompt" := VStr prompt]> (<["raw" := VBool true]> ∅))
  | RawRequest r =>
      if request_has_media request then
        Raise (AssertionError "Ollama does not support media for Completion requests")
      else
        prompt ← completion_request_to_prompt r;
        Ok (<["raw" := VBool true]> (<["prompt" := VStr prompt]> ∅))
  end.

Definition format_stage (request : Request) (input_dict : gmap string pyval)
    : result (gmap string pyval) :=
  match request_response_format request with
  | Some fmt =>
      if String.eqb (fmt_type fmt) "json_schema" then
        Ok (<["format" := VDict (fmt_json_schema fmt)]> input_dict)
      else if String.eqb (fmt_type fmt) "grammar" then
        Raise (NotImplementedError "Grammar response format is not supported")
      else
        Raise (ValueError ("Unknown response format type: " ++ fmt_type fmt))
  | None => Ok input_dict
  end.

Definition assemble (request : Request) (input_dict : gmap string pyval)
    : gmap string pyval :=
  <["stream" := of_opt_bool (request_stream request)]>
    (<["options" := VDict (remap_options
                             (get_sampling_options (request_sampling_params request)))]>
       (input_dict ∪ <["model" := VStr (request_model request)]> ∅)).

(** The response format is absent or of kind [json_schema]. *)
Definition format_accepted (request : Request) : bool :=
  match request_response_format request with
  | Some fmt => String.eqb (fmt_type fmt) "json_schema"
  | None => true
  end.

(** Every way of serving [request] ends with exception [e] and leaves
    the transport trace as it was: the non-streaming path raises [e], the
    generator of the streaming path raises [e] before its first item. *)
Definition fails_before_transport (self : PodmanAILabInferenceAdapter)
    (request : Request) (e : exn) : Prop :=
  forall t : list call,
    match request with
    | RawRequest r =>
        _nonstream_completion self r t = (Raise e, t) /\
        _stream_completion self r t = (stream_raise e, t)
    | ChatRequest r =>
        _nonstream_chat_completion self r t = (Raise e, t) /\
        _stream_chat_completion self r t = (stream_raise e, t)
    end.

(** Text-only content. *)
Definition item_is_text (c : InterleavedContentItem) : bool :=
  match c with TextContentItem _ => true | ImageContentItem _ => false end.

Definition content_text_only (c : InterleavedContent) : bool :=
  match c with
  | ContentStr _ => true
  | ContentItem c => item_is_text c
  | ContentList cs => forallb item_is_text cs
  end.

Definition text_only (messages : list Message) : bool :=
  forallb (fun m => content_text_only (content m)) messages.

(** Number of content items of a message: the length of a list content,
    one for a string or a single item. *)
Definition content_items (c : InterleavedContent) : nat :=
  match c with
  | ContentList cs => length cs
  | _ => 1
  end.

Definition total_items (messages : list Message) : nat :=
  sum_list ((fun m => content_items (content m)) <$> messages).

(** The content of a message is not a list. *)
Definition single_content (m : Message) : bool :=
  match content m with ContentList _ => false | _ => true end.

(** A wire message carrying [role] and [content]. *)
Definition role_content_entry (e : pyval) : Prop :=
  exists d : gmap string pyval,
    e = VDict d /\ is_Some (d !! "role") /\ is_Some (d !! "content").

(** Text and finish reason of an OpenAI-compatible response (its first
    choice), and of a sequence of them. *)
Definition response_text (r : OpenAICompatCompletionResponse) : string :=
  from_option text "" (head (choices r)).

Definition response_finish_reason (r : OpenAICompatCompletionResponse) : option string :=
  head (choices r) ≫= finish_reason.

Definition stream_text (s : list OpenAICompatCompletionResponse) : string :=
  String.concat "" (response_text <$> s).

Definition stream_finish_reason (s : list OpenAICompatCompletionResponse) : option string :=
  last s ≫= response_finish_reason.

(** The spec's reading of "the same underlying transport response
    sequence": the single response to a non-streaming request is the
    concatenation-equivalent of the streamed chunks, and ends as the
    last chunk does. *)
Definition aggregate (chunks : list GenerateResponse) : GenerateResponse :=
  {| gen_done := from_option gen_done false (last chunks);
     gen_done_reason := last chunks ≫= gen_done_reason;
     gen_response := String.concat "" (gen_response <$> chunks) |}.

End Stages.

(** * A small host and transport, for running the adapter on examples *)

Record ExSamplingParams : Type := { max_tokens : option Z }.

Definition ex_types : HostTypes := {|
  SamplingParams := ExSamplingParams;
  LogProbConfig := unit;
  ToolDefinition := unit;
  ToolConfig := unit;
  ToolChoice := unit;
  ToolPromptFormat := unit;
  Image := string;
  Model := string;
  CompletionResponse := OpenAICompatCompletionResponse;
  CompletionResponseStreamChunk := OpenAICompatCompletionResponse;
  ChatCompletionResponse := OpenAICompatCompletionResponse;
  ChatCompletionResponseStreamChunk := OpenAICompatCompletionResponse;
  TextTruncation := unit;
  EmbeddingTaskType := unit;
  EmbeddingsResponse := unit
|}.

Definition ex_item_is_image (c : @InterleavedContentItem ex_types) : bool :=
  match c with ImageContentItem _ => true | TextContentItem _ => false end.

Definition ex_content_has_media (c : @InterleavedContent ex_types) : bool :=
  match c with
  | ContentStr _ => false
  | ContentItem c => ex_item_is_image c
  | ContentList cs => existsb ex_item_is_image cs
  end.

Definition ex_item_text (c : @InterleavedContentItem ex_types) : string :=
  match c with ImageContentItem _ => "" | TextContentItem t => t end.

Definition ex_content_text (c : @InterleavedContent ex_types) : string :=
  match c with
  | ContentStr s => s
  | ContentItem c => ex_item_text c
  | ContentList cs => String.concat " " (ex_item_text <$> cs)
  end.

Definition ex_host : @Host ex_types := {|
  default_sampling_params := ({| max_tokens := None |} : @SamplingParams ex_types);
  get_sampling_options := fun sp : @SamplingParams ex_types =>
    match max_tokens sp with
    | Some n => if Z.eqb n 0 then ∅ else <["max_tokens" := VInt n]> ∅
    | None => ∅
    end;
  request_has_media := fun request =>
    match request with
    | ChatRequest r => existsb (fun m => ex_content_has_media (content m)) (chat_messages r)
    | RawRequest r => ex_content_has_media (comp_content r)
    end;
  chat_completion_request_to_prompt := fun r _ =>
    Ok (String.concat "" ((fun m => role m ++ ": " ++ ex_content_text (content m) ++ ";")
                            <$> chat_messages r));
  completion_request_to_prompt := fun r => Ok (ex_content_text (comp_content r));
  convert_image_content_to_url := fun image _ _ => Ok image;
  process_completion_response := fun r => r;
  process_completion_stream_response := fun s => s;
  process_chat_completion_response := fun r _ => r;
  process_chat_completion_stream_response := fun s _ => s;
  model_store_get_model := fun model_id => Ok model_id;
  provider_resource_id := fun model => model
|}.

(** A server that streams [chunks] when asked to stream and answers with
    their aggregate otherwise; [probe] is the outcome of [list]. *)
Definition ex_transport (probe : result unit) (chunks : list GenerateResponse)
    : Transport := {|
  client_list := fun _ => probe;
  client_generate := fun _ params =>
    match params !! "stream" with
    | Some (VBool true) => Ok (Streamed (Stream chunks None))
    | _ => Ok (Single (aggregate chunks))
    end;
  client_chat := fun _ _ =>
    Ok (Single {| chat_done := true; chat_done_reason := Some "stop";
                  chat_message_content := "ok" |})
|}.

Definition ex_self : PodmanAILabInferenceAdapter := {| url := "http://localhost:10434" |}.

Definition ex_image (u : string) : @InterleavedContentItem ex_types :=
  @ImageContentItem ex_types u.

Definition ex_text (t : string) : @InterleavedContentItem ex_types :=
  @TextContentItem ex_types t.

Definition ex_message (r : string) (c : @InterleavedContent ex_types) : @Message ex_types :=
  {| role := r; content := c |}.

Definition ex_chat (model : string) (messages : list (@Message ex_types))
    (n : option Z) (fmt : option ResponseFormat) : @ChatCompletionRequest ex_types :=
  {| chat_model := model;
     chat_messages := messages;
     chat_sampling_params := {| max_tokens := n |};
     chat_tools := [];
     chat_stream := Some false;
     chat_logprobs := None;
     chat_response_format := fmt;
     chat_tool_config := None |}.

Definition ex_raw (model : string) (c : @InterleavedContent ex_types)
    (n : option Z) (fmt : option ResponseFormat) (stream : bool)
    : @CompletionRequest ex_types :=
  {| comp_model := model;
     comp_content := c;
     comp_sampling_params := {| max_tokens := n |};
     comp_response_format := fmt;
     comp_stream := Some stream;
     comp_logprobs := None |}.

Definition ex_chunks : list GenerateResponse :=
  [ {| gen_done := false; gen_done_reason := None; gen_response := "Hel" |};
    {| gen_done := false; gen_done_reason := None; gen_response := "lo" |};
    {| gen_done := true; gen_done_reason := Some "stop"; gen_response := "!" |} ].

Definition ex_grammar : ResponseFormat :=
  {| fmt_type := "grammar"; fmt_json_schema := ∅ |}.

Definition ex_json_schema : ResponseFormat :=
  {| fmt_type := "json_schema"; fmt_json_schema := <["type" := VStr "object"]> ∅ |}.


(** * Further definitions for the statements *)

Section Shapes.
Context `{H : Host}.

(** The values that [_convert_content] is called on for a message
    content: the content itself, or the elements of a list content. *)
Definition content_atoms (c : InterleavedContent) : list (string + InterleavedContentItem) :=
  match c with
  | ContentStr s => [inl s]
  | ContentItem c => [inr c]
  | ContentList cs => inr <$> cs
  end.

(** The images among the content of a message. *)
Definition atom_image (a : string + InterleavedContentItem) : option Image :=
  match a with
  | inr (ImageContentItem image) => Some image
  | _ => None
  end.

Definition message_images (m : Message) : list Image :=
  omap atom_image (content_atoms (content m)).

(** The wire message [d] is the translation of the content value [a] of
    message [m]: text gives [role] and [content]; an image gives [role]
    and [images], a list of the one URL the host resolved it to. *)
Definition wire_entry (m : Message) (a : string + InterleavedContentItem)
    (d : gmap string pyval) : Prop :=
  match a with
  | inl s | inr (TextContentItem s) =>
      d = <["content" := VStr s]> (<["role" := VStr (role m)]> ∅)
  | inr (ImageContentItem image) =>
      exists u, convert_image_content_to_url image true false = Ok u /\
                d = <["images" := VList [VStr u]]> (<["role" := VStr (role m)]> ∅)
  end.

(** The keys that wire parameters can hold. *)
Definition wire_keys : list string :=
  ["model"; "messages"; "prompt"; "raw"; "format"; "options"; "stream"].

(** The request that [completion] builds. *)
Definition completion_request (model : Model) (content : InterleavedContent)
    (sampling_params : option SamplingParams)
    (response_format : option ResponseFormat)
    (stream : option bool) (logprobs : option LogProbConfig) : CompletionRequest :=
  {| comp_model := provider_resource_id model;
     comp_content := content;
     comp_sampling_params := default default_sampling_params sampling_params;
     comp_response_format := response_format;
     comp_stream := stream;
     comp_logprobs := logprobs |}.

(** The request that [chat_completion] builds. *)
Definition chat_request (model_id : string) (messages : list Message)
    (sampling_params : option SamplingParams)
    (response_format : option ResponseFormat)
    (tools : option (list ToolDefinition))
    (stream : option bool) (logprobs : option LogProbConfig)
    (tool_config : option ToolConfig) : ChatCompletionRequest :=
  {| chat_model := model_id;
     chat_messages := messages;
     chat_sampling_params := default default_sampling_params sampling_params;
     chat_tools := default [] tools;
     chat_stream := stream;
     chat_logprobs := logprobs;
     chat_response_format := response_format;
     chat_tool_config := tool_config |}.

(** The transport call of a chat request with wire parameters [params]. *)
Definition chat_call (self : PodmanAILabInferenceAdapter)
    (params : gmap string pyval) : call :=
  if bool_decide (is_Some (params !! "messages"))
  then ChatCall (url self) params
  else GenerateCall (url self) params.

End Shapes.

(** A host whose awaited helpers all raise [e]. *)
Definition ex_host_failing (e : exn) : @Host ex_types := {|
  default_sampling_params := ({| max_tokens := None |} : @SamplingParams ex_types);
  get_sampling_options := @get_sampling_options ex_types ex_host;
  request_has_media := @request_has_media ex_types ex_host;
  chat_completion_request_to_prompt := fun _ _ => Raise e;
  completion_request_to_prompt := fun _ => Raise e;
  convert_image_content_to_url := fun _ _ _ => Raise e;
  process_completion_response := fun r => r;
  process_completion_stream_response := fun s => s;
  process_chat_completion_response := fun r _ => r;
  process_chat_completion_stream_response := fun s _ => s;
  model_store_get_model := fun _ => Raise e;
  provider_resource_id := fun model => model
|}.

(** A server that is reachable but whose [generate] and [chat] raise [e]. *)
Definition ex_transport_failing (e : exn) : Transport := {|
  client_list := fun _ => Ok tt;
  client_generate := fun _ _ => Raise e;
  client_chat := fun _ _ => Raise e
|}.

(** A server whose stream breaks with [e] after [chunks]. *)
Definition ex_transport_broken (chunks : list GenerateResponse) (e : exn)
    : Transport := {|
  client_list := fun _ => Ok tt;
  client_generate := fun _ _ => Ok (Streamed (Stream chunks (Some e)));
  client_chat := fun _ _ => Raise e
|}.

(** * Properties of parameter construction *)

Lemma bind_Ok_inv {A B : Type} (m : result A) (f : A -> result B) (b : B) :
  (m ≫= f) = Ok b -> exists a, m = Ok a /\ f a = Ok b.
Proof. destruct m as [a|e]; simpl; [eauto | discriminate]. Qed.

Lemma await_all_length {A B : Type} (f : A -> result B) (l : list A) (l' : list B) :
  await_all f l = Ok l' -> length l' = length l.
Proof.
  revert l'. induction l as [|x l IH]; intros l' Hl; simpl in Hl.
  - by inversion Hl.
  - apply bind_Ok_inv in Hl as (y & _ & Hl).
    apply bind_Ok_inv in Hl as (ys & Hys & Hl).
    inversion Hl; subst. simpl. f_equal. by apply IH.
Qed.

Lemma await_all_Forall {A B : Type} (P : B -> Prop) (f : A -> result B)
    (l : list A) (l' : list B) :
  (forall x y, x ∈ l -> f x = Ok y -> P y) ->
  await_all f l = Ok l' -> Forall P l'.
Proof.
  revert l'. induction l as [|x l IH]; intros l' HP Hl; simpl in Hl.
  - inversion Hl. constructor.
  - apply bind_Ok_inv in Hl as (y & Hy & Hl).
    apply bind_Ok_inv in Hl as (ys & Hys & Hl).
    inversion Hl; subst. constructor.
    + apply (HP x); [left | done].
    + apply IH; [|done]. intros x' y' Hx'. apply HP. by right.
Qed.

(** [await_all] succeeds when the function succeeds on every element. *)
Lemma await_all_total {A B : Type} (f : A -> result B) (l : list A) :
  (forall x, x ∈ l -> exists y, f x = Ok y) -> exists l', await_all f l = Ok l'.
Proof.
  induction l as [|x l IH]; intros Hf; simpl.
  - eauto.
  - destruct (Hf x) as [y Hy]; [left|]. rewrite Hy. simpl.
    destruct IH as [ys Hys]; [intros x' Hx'; apply Hf; by right|].
    rewrite Hys. simpl. eauto.
Qed.

Section GetParams.
Context `{H : Host}.

Lemma _get_params_stages (request : Request) :
  _get_params request =
  (d ← input_stage request; d' ← format_stage request d; Ok (assemble request d')).
Proof. destruct request; reflexivity. Qed.

Lemma _get_params_inv (request : Request) (params : gmap string pyval) :
  _get_params request = Ok params ->
  exists d d', input_stage request = Ok d /\ format_stage request d = Ok d' /\
               params = assemble request d'.
Proof.
  rewrite _get_params_stages. intros Hp.
  apply bind_Ok_inv in Hp as (d & Hd & Hp).
  apply bind_Ok_inv in Hp as (d' & Hd' & Hp).
  exists d, d'. repeat split; congruence.
Qed.

(** [_get_params] returns as soon as both stages go through. *)
Lemma _get_params_returns (request : Request) (d : gmap string pyval) :
  input_stage request = Ok d -> format_accepted request = true ->
  exists params, _get_params request = Ok params.
Proof.
  intros Hd Hf. rewrite _get_params_stages, Hd. simpl.
  unfold format_accepted in Hf. unfold format_stage.
  destruct (request_response_format request) as [fmt|]; simpl; [|eauto].
  rewrite Hf. simpl. eauto.
Qed.

(** [assemble] only writes [model], [options] and [stream]. *)
Lemma assemble_lookup_other (request : Request) (d : gmap string pyval) (k : string) :
  k ≠ "stream" -> k ≠ "options" -> k ≠ "model" ->
  assemble request d !! k = d !! k.
Proof.
  intros Hs Ho Hm. unfold assemble.
  rewrite !lookup_insert_ne by congruence.
  rewrite lookup_union, lookup_insert_ne, lookup_empty by congruence.
  by destruct (d !! k).
Qed.

Lemma assemble_lookup_options (request : Request) (d : gmap string pyval) :
  assemble request d !! "options" =
  Some (VDict (remap_options (get_sampling_options (request_sampling_params request)))).
Proof.
  unfold assemble. rewrite lookup_insert_ne by discriminate.
  apply lookup_insert_eq.
Qed.

(** [format_stage] only writes [format]. *)
Lemma format_stage_lookup_other (request : Request) (d d' : gmap string pyval) (k : string) :
  format_stage request d = Ok d' -> k ≠ "format" -> d' !! k = d !! k.
Proof.
  unfold format_stage. intros Hf Hk.
  destruct (request_response_format request) as [fmt|]; [|congruence].
  destruct (String.eqb (fmt_type fmt) "json_schema").
  - inversion Hf; subst. by rewrite lookup_insert_ne.
  - destruct (String.eqb (fmt_type fmt) "grammar"); discriminate.
Qed.

(** Keys of the wire parameters that come from the input stage. *)
Lemma _get_params_lookup_input (request : Request) (params : gmap string pyval) (k : string) :
  _get_params request = Ok params ->
  k ≠ "stream" -> k ≠ "options" -> k ≠ "model" -> k ≠ "format" ->
  exists d, input_stage request = Ok d /\ params !! k = d !! k.
Proof.
  intros Hp Hs Ho Hm Hf.
  apply _get_params_inv in Hp as (d & d' & Hd & Hd' & ->).
  exists d. split; [done|].
  rewrite assemble_lookup_other by done.
  by apply (format_stage_lookup_other request).
Qed.

(** The input stage writes either [messages] alone, or [prompt] with [raw]. *)
Lemma input_stage_shape (request : Request) (d : gmap string pyval) :
  input_stage request = Ok d ->
  (is_Some (d !! "messages") /\ d !! "prompt" = None /\ d !! "raw" = None) \/
  (d !! "messages" = None /\ (exists s, d !! "prompt" = Some (VStr s)) /\
   d !! "raw" = Some (VBool true)).
Proof.
  unfold input_stage. destruct request as [r|r].
  - destruct (_ || _).
    + intros Hd. apply bind_Ok_inv in Hd as (cs & _ & Hd). inversion Hd; subst.
      left. rewrite lookup_insert_eq. split; [eauto|]. split; reflexivity.
    + intros Hd. apply bind_Ok_inv in Hd as (s & _ & Hd). inversion Hd; subst.
      right. split; [reflexivity|]. split; [exists s; reflexivity | reflexivity].
  - destruct (request_has_media _); [discriminate|].
    intros Hd. apply bind_Ok_inv in Hd as (s & _ & Hd). inversion Hd; subst.
    right. split; [reflexivity|]. split; [exists s; reflexivity | reflexivity].
Qed.

(** The options sent are the host's sampling options after the remap. *)
Lemma _get_params_options (request : Request) (params : gmap string pyval) :
  _get_params request = Ok params ->
  params !! "options" =
  Some (VDict (remap_options (get_sampling_options (request_sampling_params request)))).
Proof.
  intros Hp. apply _get_params_inv in Hp as (d & d' & _ & _ & ->).
  apply assemble_lookup_options.
Qed.

Lemma remap_options_max_tokens (o : gmap string pyval) (v : pyval) :
  o !! "max_tokens" = Some v -> v ≠ VNone ->
  remap_options o = <["num_predict" := v]> o.
Proof.
  intros Ho Hv. unfold remap_options. rewrite Ho.
  destruct v; simpl; congruence.
Qed.

End GetParams.

(** * The wire parameters of chat and completion requests *)

Section WireParameters.
Context `{H : Host}.

(** C2: for a chat request without media and with a non-empty model
    name, [_get_params] returns as soon as the prompt renderer does and
    the response format is accepted, and whatever it returns contains
    [raw = True], a [prompt] string (the rendered, flattened prompt) and
    no [messages] key. *)
Theorem chat_text_request_sends_raw_prompt (r : ChatCompletionRequest) :
  request_has_media (ChatRequest r) = false ->
  chat_model r ≠ "" ->
  (forall prompt,
     chat_completion_request_to_prompt r (chat_model r) = Ok prompt ->
     format_accepted (ChatRequest r) = true ->
     exists params, _get_params (ChatRequest r) = Ok params) /\
  (forall params,
     _get_params (ChatRequest r) = Ok params ->
     params !! "raw" = Some (VBool true) /\
     (exists prompt,
        chat_completion_request_to_prompt r (chat_model r) = Ok prompt /\
        params !! "prompt" = Some (VStr prompt)) /\
     params !! "messages" = None).
Proof.
  intros Hmedia Hmodel.
  assert (Hin : input_stage (ChatRequest r) =
                (prompt ← chat_completion_request_to_prompt r (chat_model r);
                 Ok (<["prompt" := VStr prompt]> (<["raw" := VBool true]> ∅)))).
  { unfold input_stage. rewrite Hmedia. simpl.
    destruct (chat_model r); [congruence | reflexivity]. }
  split.
  - intros prompt Hprompt Hfmt.
    apply (_get_params_returns _ (<["prompt" := VStr prompt]> (<["raw" := VBool true]> ∅)));
      [|done].
    rewrite Hin, Hprompt. reflexivity.
  - intros params Hp.
    apply _get_params_inv in Hp as (d & d' & Hd & Hd' & ->).
    rewrite Hin in Hd. apply bind_Ok_inv in Hd as (prompt & Hprompt & Hd).
    inversion Hd; subst d; clear Hd.
    rewrite !assemble_lookup_other by discriminate.
    rewrite !(format_stage_lookup_other _ _ _ _ Hd') by discriminate.
    split; [reflexivity|]. split; [|reflexivity].
    exists prompt. split; [done | reflexivity].
Qed.

(** C3: when the host's translation of the sampling parameters holds a
    max-output-tokens value, the [options] mapping of the wire
    parameters holds [num_predict] with that value. *)
Theorem max_tokens_sets_num_predict (request : Request)
    (params : gmap string pyval) (v : pyval) :
  get_sampling_options (request_sampling_params request) !! "max_tokens" = Some v ->
  v ≠ VNone ->
  _get_params request = Ok params ->
  exists o : gmap string pyval,
    params !! "options" = Some (VDict o) /\ o !! "num_predict" = Some v.
Proof.
  intros Hv Hnone Hp. eexists. split.
  - by apply _get_params_options.
  - rewrite (remap_options_max_tokens _ v) by done. apply lookup_insert_eq.
Qed.

(** C4 (amended): when the sampling options hold [max_tokens], the wire
    options are the sampling options with [num_predict] added: it
    carries the value of [max_tokens], the key [max_tokens] is still
    there with the same value, and every other key is unchanged. *)
Theorem max_tokens_copied_to_num_predict (request : Request)
    (params : gmap string pyval) (v : pyval) :
  get_sampling_options (request_sampling_params request) !! "max_tokens" = Some v ->
  v ≠ VNone ->
  _get_params request = Ok params ->
  exists o : gmap string pyval,
    params !! "options" = Some (VDict o) /\
    o = <["num_predict" := v]> (get_sampling_options (request_sampling_params request)) /\
    o !! "num_predict" = Some v /\
    o !! "max_tokens" = Some v /\
    (forall k, k ≠ "num_predict" ->
       o !! k = get_sampling_options (request_sampling_params request) !! k).
Proof.
  intros Hv Hnone Hp. eexists. split; [by apply _get_params_options|].
  rewrite (remap_options_max_tokens _ v) by done.
  split; [reflexivity|]. split; [apply lookup_insert_eq|]. split.
  - by rewrite lookup_insert_ne.
  - intros k Hk. by rewrite lookup_insert_ne.
Qed.

(** C5: whenever [_get_params] returns, the wire parameters hold exactly
    one of the keys [prompt] and [messages]. *)
Theorem exactly_one_of_prompt_messages (request : Request)
    (params : gmap string pyval) :
  _get_params request = Ok params ->
  (is_Some (params !! "prompt") /\ params !! "messages" = None) \/
  (params !! "prompt" = None /\ is_Some (params !! "messages")).
Proof.
  intros Hp.
  destruct (_get_params_lookup_input request params "prompt" Hp)
    as (d & Hd & Hprompt); try discriminate.
  destruct (_get_params_lookup_input request params "messages" Hp)
    as (d2 & Hd2 & Hmessages); try discriminate.
  assert (d2 = d) as -> by congruence.
  rewrite Hprompt, Hmessages.
  destruct (input_stage_shape request d Hd) as [(Hm & Hpr & _) | (Hm & (s & Hpr) & _)].
  - right. done.
  - left. rewrite Hpr. eauto.
Qed.

End WireParameters.

(** * Text-only chat messages *)

Section TextMessages.
Context `{H : Host}.

Lemma convert_text_items (m : Message) (cs : list InterleavedContentItem) :
  forallb item_is_text cs = true ->
  exists l, await_all (fun c => _convert_content m (inr c)) cs = Ok l /\
            length l = length cs /\
            Forall (fun d => is_Some (d !! "role") /\ is_Some (d !! "content")) l.
Proof.
  induction cs as [|c cs IH]; cbn [await_all forallb]; intros Hcs.
  - exists []. repeat split; constructor.
  - apply andb_prop in Hcs as [Hc Hcs].
    destruct c as [image|text]; [discriminate|].
    destruct (IH Hcs) as (l & -> & Hlen & Hl).
    eexists. split; [reflexivity|]. split; [simpl; congruence|].
    constructor; [|done]. split; eexists; reflexivity.
Qed.

(** A text-only message becomes one wire message per content item, each
    with [role] and [content]. *)
Lemma convert_text_message (m : Message) :
  content_text_only (content m) = true ->
  exists l, convert_message_to_openai_dict_for_podman_ai_lab m = Ok l /\
            length l = content_items (content m) /\
            Forall (fun d => is_Some (d !! "role") /\ is_Some (d !! "content")) l.
Proof.
  unfold convert_message_to_openai_dict_for_podman_ai_lab, content_text_only, content_items.
  destruct (content m) as [s|c|cs]; intros Hc.
  - eexists. split; [reflexivity|]. split; [reflexivity|].
    constructor; [|constructor]. split; eexists; reflexivity.
  - destruct c as [image|text]; [discriminate|].
    eexists. split; [reflexivity|]. split; [reflexivity|].
    constructor; [|constructor]. split; eexists; reflexivity.
  - by apply convert_text_items.
Qed.

Lemma convert_text_messages (messages : list Message) :
  text_only messages = true ->
  exists contents,
    await_all convert_message_to_openai_dict_for_podman_ai_lab messages = Ok contents /\
    length (concat contents) = total_items messages /\
    Forall (fun d => is_Some (d !! "role") /\ is_Some (d !! "content")) (concat contents).
Proof.
  induction messages as [|m messages IH]; cbn [await_all text_only forallb]; intros Hms.
  - exists []. repeat split; constructor.
  - apply andb_prop in Hms as [Hm Hms].
    destruct (convert_text_message m Hm) as (l & -> & Hlen & Hl).
    destruct (IH Hms) as (contents & -> & Hlens & Hall).
    eexists. split; [reflexivity|]. simpl. split.
    + rewrite length_app, Hlen. unfold total_items in *. simpl. f_equal. exact Hlens.
    + by apply Forall_app.
Qed.

Lemma total_items_single (messages : list Message) :
  forallb single_content messages = true -> total_items messages = length messages.
Proof.
  unfold total_items. induction messages as [|m messages IH]; simpl; [done|].
  intros Hms. apply andb_prop in Hms as [Hm Hms]. apply IH in Hms.
  unfold single_content, content_items in *. simpl in *.
  destruct (content m); [by f_equal | by f_equal | discriminate].
Qed.

(** C1 (amended): for a chat request whose messages hold only text and
    whose model name is empty, [_get_params] returns whenever the
    response format is accepted, and what it returns holds [messages]
    and no [prompt]; [messages] has one entry per content item of each
    message (so one entry per message when no message content is a
    list), and every entry carries [role] and [content]. *)
Theorem chat_text_request_without_model_sends_messages (r : ChatCompletionRequest) :
  text_only (chat_messages r) = true ->
  chat_model r = "" ->
  (format_accepted (ChatRequest r) = true ->
   exists params, _get_params (ChatRequest r) = Ok params) /\
  (forall params,
     _get_params (ChatRequest r) = Ok params ->
     params !! "prompt" = None /\
     exists entries,
       params !! "messages" = Some (VList entries) /\
       length entries = total_items (chat_messages r) /\
       (forallb single_content (chat_messages r) = true ->
        length entries = length (chat_messages r)) /\
       Forall role_content_entry entries).
Proof.
  intros Htext Hmodel.
  destruct (convert_text_messages _ Htext) as (contents & Hconv & Hlen & Hall).
  assert (Hin : input_stage (ChatRequest r) =
                Ok (<["messages" := VList (VDict <$> concat contents)]> ∅)).
  { unfold input_stage. simpl. rewrite Hmodel. simpl. rewrite orb_true_r.
    rewrite Hconv. reflexivity. }
  split.
  - intros Hfmt. by apply (_get_params_returns _ _ Hin).
  - intros params Hp.
    apply _get_params_inv in Hp as (d & d' & Hd & Hd' & ->).
    rewrite Hin in Hd. inversion Hd; subst d; clear Hd.
    rewrite !assemble_lookup_other by discriminate.
    rewrite !(format_stage_lookup_other _ _ _ _ Hd') by discriminate.
    split; [reflexivity|].
    exists (VDict <$> concat contents). split; [reflexivity|].
    rewrite length_fmap. split; [done|]. split.
    + intros Hsingle. rewrite Hlen. by apply total_items_single.
    + apply Forall_fmap. eapply Forall_impl; [exact Hall|].
      intros d [Hrole Hcontent]. by exists d.
Qed.

End TextMessages.

(** * Failures before the transport, and the calls that reach it *)

Section Dispatch.
Context `{H : Host} `{T : Transport}.

(** An exception of [_get_params] ends all four serving paths before
    any call to the client. *)
Lemma _get_params_raise_before_transport (self : PodmanAILabInferenceAdapter)
    (request : Request) (e : exn) :
  _get_params request = Raise e -> fails_before_transport self request e.
Proof.
  intros He t. destruct request as [r|r].
  - unfold _nonstream_chat_completion, _stream_chat_completion, mbind, IO_bind, lift.
    by rewrite He.
  - unfold _nonstream_completion, _stream_completion, mbind, IO_bind, lift.
    by rewrite He.
Qed.

(** The parameters built by [_get_params] are the ones handed to
    [client.generate], in one call. *)
Lemma _nonstream_completion_call (self : PodmanAILabInferenceAdapter)
    (r : CompletionRequest) (params : gmap string pyval) (t : list call) :
  _get_params (RawRequest r) = Ok params ->
  snd (_nonstream_completion self r t) = (t ++ [GenerateCall (url self) params])%list.
Proof.
  intros Hp. unfold _nonstream_completion, mbind, IO_bind, lift, do_generate.
  rewrite Hp. destruct (client_generate (url self) params) as [[r'|s]|e]; reflexivity.
Qed.

Lemma _stream_completion_call (self : PodmanAILabInferenceAdapter)
    (r : CompletionRequest) (params : gmap string pyval) (t : list call) :
  _get_params (RawRequest r) = Ok params ->
  snd (_stream_completion self r t) = (t ++ [GenerateCall (url self) params])%list.
Proof.
  intros Hp. unfold _stream_completion, _generate_and_convert_to_openai_compat, do_generate.
  rewrite Hp. destruct (client_generate (url self) params) as [[r'|s]|e]; reflexivity.
Qed.






(** The assertion of the raw completion branch. *)
Lemma _get_params_raw_media (r : CompletionRequest) :
  request_has_media (RawRequest r) = true ->
  _get_params (RawRequest r) =
    Raise (AssertionError "Ollama does not support media for Completion requests").
Proof.
  intros Hmedia. rewrite _get_params_stages. unfold input_stage. by rewrite Hmedia.
Qed.

(** C7: a raw completion request with media makes [_get_params] raise
    its assertion error; the non-streaming path ends with that error,
    the generator of the streaming path raises it before its first
    item, and neither has called the transport. *)
Theorem raw_completion_with_media_fails (self : PodmanAILabInferenceAdapter)
    (r : CompletionRequest) :
  request_has_media (RawRequest r) = true ->
  _get_params (RawRequest r) =
    Raise (AssertionError "Ollama does not support media for Completion requests") /\
  forall t : list call,
    _nonstream_completion self r t =
      (Raise (AssertionError "Ollama does not support media for Completion requests"), t) /\
    _stream_completion self r t =
      (Stream [] (Some (AssertionError
                          "Ollama does not support media for Completion requests")), t).
Proof.
  intros Hmedia. pose proof (_get_params_raw_media r Hmedia) as He.
  split; [done|]. intros t.
  apply (_get_params_raise_before_transport self (RawRequest r) _ He t).
Qed.

(** [completion] with media: in non-streaming mode the call itself
    raises; in streaming mode it returns a generator that raises when
    consumed.  Neither calls the transport. *)
Lemma completion_with_media_fails (self : PodmanAILabInferenceAdapter)
    (model_id : string) (content : InterleavedContent)
    (sampling_params : option SamplingParams)
    (response_format : option ResponseFormat)
    (stream : option bool) (logprobs : option LogProbConfig)
    (model : Model) (t : list call) :
  model_store_get_model model_id = Ok model ->
  (forall r, comp_content r = content -> request_has_media (RawRequest r) = true) ->
  let e := AssertionError "Ollama does not support media for Completion requests" in
  if opt_truthy stream then
    exists g, completion self model_id content sampling_params response_format
                stream logprobs t = (Ok (Lazy g), t) /\
              forall t', g t' = (stream_raise e, t')
  else
    completion self model_id content sampling_params response_format
      stream logprobs t = (Raise e, t).
Proof.
  intros Hmodel Hmedia e. unfold completion, mbind, IO_bind, lift.
  rewrite Hmodel. cbv beta iota.
  set (request := {| comp_model := provider_resource_id model;
                     comp_content := content;
                     comp_sampling_params := default default_sampling_params sampling_params;
                     comp_response_format := response_format;
                     comp_stream := stream;
                     comp_logprobs := logprobs |}).
  assert (Hpaths : fails_before_transport self (RawRequest request) e).
  { apply _get_params_raise_before_transport, _get_params_raw_media. by apply Hmedia. }
  unfold fails_before_transport in Hpaths.
  destruct (opt_truthy stream).
  - eexists. split; [reflexivity|]. intros t'. apply Hpaths.
  - destruct (Hpaths t) as [Hnon _]. by rewrite Hnon.
Qed.

(** [initialize] probes the transport exactly once, whatever happens. *)
Lemma initialize_single_probe (self : PodmanAILabInferenceAdapter) (t : list call) :
  snd (initialize self t) = (t ++ [ListCall (url self)])%list.
Proof.
  unfold initialize, do_list.
  destruct (client_list (url self)) as [u|e]; [done|].
  by destruct (is_ConnectionError e).
Qed.

(** C8: when the probe of [initialize] ends with a connection error,
    [initialize] raises the runtime error that tells the operator to
    start the server (with the connection error as its cause), after
    exactly one [list] call to the configured URL. *)
Theorem initialize_unreachable (self : PodmanAILabInferenceAdapter)
    (e : exn) (t : list call) :
  client_list (url self) = Raise e ->
  is_ConnectionError e = true ->
  initialize self t =
    (Raise (RuntimeError
              "Podman AI Lab Server is not running, start it using Podman Desktop"
              (Some e)),
     (t ++ [ListCall (url self)])%list).
Proof.
  intros Hprobe Hconn. unfold initialize, do_list. by rewrite Hprobe, Hconn.
Qed.

(** C10: [embeddings] raises its not-implemented error on every input
    and calls nothing. *)
Theorem embeddings_not_implemented (self : PodmanAILabInferenceAdapter)
    (model_id : string)
    (contents : list string + list InterleavedContentItem)
    (text_truncation : option TextTruncation)
    (output_dimension : option Z)
    (task_type : option EmbeddingTaskType) (t : list call) :
  embeddings self model_id contents text_truncation output_dimension task_type t =
    (Raise (NotImplementedError "embeddings endpoint is not implemented"), t).
Proof. reflexivity. Qed.

End Dispatch.

(** * Streaming against non-streaming completion *)

Section Streaming.
Context `{H : Host} `{T : Transport}.

Lemma stream_text_convert (chunks : list GenerateResponse) :
  stream_text ((fun chunk => wrap (choice_of_generate chunk)) <$> chunks) =
  gen_response (aggregate chunks).
Proof.
  unfold stream_text, aggregate. simpl. f_equal.
  induction chunks as [|c chunks IH]; simpl; [done|]. by f_equal.
Qed.

Lemma stream_finish_reason_convert (chunks : list GenerateResponse) :
  stream_finish_reason ((fun chunk => wrap (choice_of_generate chunk)) <$> chunks) =
  finish_reason (choice_of_generate (aggregate chunks)).
Proof.
  unfold stream_finish_reason, aggregate. rewrite fmap_last.
  destruct (last chunks) as [c|]; reflexivity.
Qed.

(** C9: let the server stream [chunks] for the streaming request and
    answer the non-streaming request with their aggregate.  Then both
    paths make one [generate] call, and what they hand to the host's
    post-processing agrees: the text of the single response is the
    concatenation of the texts of the streamed responses, and its finish
    reason is the one of the last streamed response. *)
Theorem streaming_matches_nonstreaming (self : PodmanAILabInferenceAdapter)
    (req_s req_n : CompletionRequest) (ps pn : gmap string pyval)
    (chunks : list GenerateResponse) (t : list call) :
  _get_params (RawRequest req_s) = Ok ps ->
  _get_params (RawRequest req_n) = Ok pn ->
  client_generate (url self) ps = Ok (Streamed (Stream chunks None)) ->
  client_generate (url self) pn = Ok (Single (aggregate chunks)) ->
  exists (response : OpenAICompatCompletionResponse)
         (s : list OpenAICompatCompletionResponse),
    _nonstream_completion self req_n t =
      (Ok (process_completion_response response),
       (t ++ [GenerateCall (url self) pn])%list) /\
    _stream_completion self req_s t =
      (process_completion_stream_response (Stream s None),
       (t ++ [GenerateCall (url self) ps])%list) /\
    length s = length chunks /\
    response_text response = stream_text s /\
    response_finish_reason response = stream_finish_reason s.
Proof.
  intros Hps Hpn Hs Hn.
  exists (wrap (choice_of_generate (aggregate chunks))),
         ((fun chunk => wrap (choice_of_generate chunk)) <$> chunks).
  split; [|split; [|split; [|split]]].
  - unfold _nonstream_completion, mbind, IO_bind, lift, do_generate.
    by rewrite Hpn, Hn.
  - unfold _stream_completion, _generate_and_convert_to_openai_compat, do_generate.
    by rewrite Hps, Hs.
  - apply length_fmap.
  - by rewrite stream_text_convert.
  - by rewrite stream_finish_reason_convert.
Qed.

End Streaming.

(** * More on the wire parameters *)

Section WireShape.
Context `{H : Host}.

(** The input stage writes no key besides [messages], [prompt], [raw]. *)
Lemma input_stage_lookup_other (request : Request) (d : gmap string pyval) (k : string) :
  input_stage request = Ok d ->
  k ≠ "messages" -> k ≠ "prompt" -> k ≠ "raw" -> d !! k = None.
Proof.
  unfold input_stage. intros Hd Hm Hp Hr. destruct request as [r|r].
  - destruct (_ || _).
    + apply bind_Ok_inv in Hd as (cs & _ & Hd). inversion Hd; subst.
      by rewrite lookup_insert_ne, lookup_empty.
    + apply bind_Ok_inv in Hd as (s & _ & Hd). inversion Hd; subst.
      by rewrite !lookup_insert_ne, lookup_empty.
  - destruct (request_has_media _); [discriminate|].
    apply bind_Ok_inv in Hd as (s & _ & Hd). inversion Hd; subst.
    by rewrite !lookup_insert_ne, lookup_empty.
Qed.

Lemma assemble_lookup_model (request : Request) (d : gmap string pyval) :
  d !! "model" = None ->
  assemble request d !! "model" = Some (VStr (request_model request)).
Proof.
  intros Hd. unfold assemble. rewrite !lookup_insert_ne by discriminate.
  by rewrite lookup_union, Hd, lookup_insert_eq.
Qed.

Lemma assemble_lookup_stream (request : Request) (d : gmap string pyval) :
  assemble request d !! "stream" = Some (of_opt_bool (request_stream request)).
Proof. unfold assemble. apply lookup_insert_eq. Qed.

(** What the format stage leaves under [format]. *)
Lemma format_stage_lookup_format (request : Request) (d d' : gmap string pyval) :
  d !! "format" = None ->
  format_stage request d = Ok d' ->
  match request_response_format request with
  | Some fmt => fmt_type fmt = "json_schema" /\
                d' !! "format" = Some (VDict (fmt_json_schema fmt))
  | None => d' !! "format" = None
  end.
Proof.
  unfold format_stage. intros Hd Hf.
  destruct (request_response_format request) as [fmt|]; [|congruence].
  destruct (String.eqb (fmt_type fmt) "json_schema") eqn:Hj.
  - apply String.eqb_eq in Hj. inversion Hf; subst.
    split; [done|]. apply lookup_insert_eq.
  - destruct (String.eqb (fmt_type fmt) "grammar"); discriminate.
Qed.

Lemma _get_params_lookup_model (request : Request) (params : gmap string pyval) :
  _get_params request = Ok params ->
  params !! "model" = Some (VStr (request_model request)).
Proof.
  intros Hp. apply _get_params_inv in Hp as (d & d' & Hd & Hd' & ->).
  apply assemble_lookup_model.
  rewrite (format_stage_lookup_other _ _ _ _ Hd') by discriminate.
  by apply (input_stage_lookup_other request).
Qed.

(** The wire parameters always name the model of the request, repeat its
    [stream] flag, and carry the sampling options as a mapping. *)
Theorem wire_params_model_stream_options (request : Request)
    (params : gmap string pyval) :
  _get_params request = Ok params ->
  params !! "model" = Some (VStr (request_model request)) /\
  params !! "stream" = Some (of_opt_bool (request_stream request)) /\
  exists o : gmap string pyval, params !! "options" = Some (VDict o).
Proof.
  intros Hp. pose proof (_get_params_options request params Hp) as Ho.
  split; [by apply _get_params_lookup_model|].
  apply _get_params_inv in Hp as (d & d' & Hd & Hd' & ->).
  split; [apply assemble_lookup_stream | eauto].
Qed.

(** The wire parameters hold no key outside [model], [messages],
    [prompt], [raw], [format], [options] and [stream]: tools, tool
    configuration and log-probability settings are never sent. *)
Theorem wire_params_key_set (request : Request) (params : gmap string pyval)
    (k : string) :
  _get_params request = Ok params ->
  is_Some (params !! k) ->
  k ∈ wire_keys.
Proof.
  intros Hp Hk. unfold wire_keys.
  destruct (decide (k = "model")) as [->|Hmodel]; [set_solver|].
  destruct (decide (k = "messages")) as [->|Hmessages]; [set_solver|].
  destruct (decide (k = "prompt")) as [->|Hprompt]; [set_solver|].
  destruct (decide (k = "raw")) as [->|Hraw]; [set_solver|].
  destruct (decide (k = "format")) as [->|Hformat]; [set_solver|].
  destruct (decide (k = "options")) as [->|Hoptions]; [set_solver|].
  destruct (decide (k = "stream")) as [->|Hstream]; [set_solver|].
  exfalso.
  destruct (_get_params_lookup_input request params k Hp) as (d & Hd & Hlook);
    try done.
  rewrite Hlook, (input_stage_lookup_other request d k Hd) in Hk by done.
  by destruct Hk.
Qed.

(** [raw] goes with [prompt]: it is [True] exactly when a prompt is sent
    and absent exactly when messages are sent. *)
Theorem raw_accompanies_prompt (request : Request) (params : gmap string pyval) :
  _get_params request = Ok params ->
  (is_Some (params !! "prompt") <-> params !! "raw" = Some (VBool true)) /\
  (is_Some (params !! "messages") <-> params !! "raw" = None).
Proof.
  intros Hp.
  destruct (_get_params_lookup_input request params "prompt" Hp)
    as (d & Hd & Hprompt); try discriminate.
  destruct (_get_params_lookup_input request params "messages" Hp)
    as (d2 & Hd2 & Hmessages); try discriminate.
  destruct (_get_params_lookup_input request params "raw" Hp)
    as (d3 & Hd3 & Hraw); try discriminate.
  assert (d2 = d) as -> by congruence. assert (d3 = d) as -> by congruence.
  rewrite Hprompt, Hmessages, Hraw.
  destruct (input_stage_shape request d Hd)
    as [(Hm & Hpr & Hr) | (Hm & (s & Hpr) & Hr)]; rewrite Hpr, Hr.
  - split; split; intros Hx; try done; by destruct Hx.
  - rewrite Hm. split; split; intros Hx; try done; eauto; by destruct Hx.
Qed.

(** Without a [max_tokens] value in the host's sampling options (the key
    is missing or holds [None]) the options are sent as the host gave
    them: no [num_predict] is made up. *)
Theorem options_unchanged_without_max_tokens (request : Request)
    (params : gmap string pyval) :
  get_sampling_options (request_sampling_params request) !! "max_tokens" = None \/
  get_sampling_options (request_sampling_params request) !! "max_tokens" = Some VNone ->
  _get_params request = Ok params ->
  params !! "options" =
    Some (VDict (get_sampling_options (request_sampling_params request))).
Proof.
  intros Hmax Hp. rewrite (_get_params_options request params Hp).
  unfold remap_options. by destruct Hmax as [-> | ->].
Qed.

(** The key [format] is sent exactly for a response format, which then
    is of kind [json_schema] and whose schema is the value; without a
    response format there is no [format] key. *)
Theorem format_key_follows_response_format (request : Request)
    (params : gmap string pyval) :
  _get_params request = Ok params ->
  match request_response_format request with
  | Some fmt => fmt_type fmt = "json_schema" /\
                params !! "format" = Some (VDict (fmt_json_schema fmt))
  | None => params !! "format" = None
  end.
Proof.
  intros Hp. apply _get_params_inv in Hp as (d & d' & Hd & Hd' & ->).
  rewrite assemble_lookup_other by discriminate.
  apply (format_stage_lookup_format request d d'); [|done].
  by apply (input_stage_lookup_other request).
Qed.

(** A raw completion request without media: [_get_params] returns as
    soon as the host renders the prompt and the response format is
    accepted, and what it returns holds that prompt, [raw = True] and no
    [messages]. *)
Theorem raw_completion_sends_raw_prompt (r : CompletionRequest) :
  request_has_media (RawRequest r) = false ->
  (forall prompt,
     completion_request_to_prompt r = Ok prompt ->
     format_accepted (RawRequest r) = true ->
     exists params, _get_params (RawRequest r) = Ok params) /\
  (forall params,
     _get_params (RawRequest r) = Ok params ->
     params !! "raw" = Some (VBool true) /\
     (exists prompt,
        completion_request_to_prompt r = Ok prompt /\
        params !! "prompt" = Some (VStr prompt)) /\
     params !! "messages" = None).
Proof.
  intros Hmedia.
  assert (Hin : input_stage (RawRequest r) =
                (prompt ← completion_request_to_prompt r;
                 Ok (<["raw" := VBool true]> (<["prompt" := VStr prompt]> ∅)))).
  { unfold input_stage. by rewrite Hmedia. }
  split.
  - intros prompt Hprompt Hfmt.
    apply (_get_params_returns _ (<["raw" := VBool true]> (<["prompt" := VStr prompt]> ∅)));
      [|done].
    rewrite Hin, Hprompt. reflexivity.
  - intros params Hp.
    apply _get_params_inv in Hp as (d & d' & Hd & Hd' & ->).
    rewrite Hin in Hd. apply bind_Ok_inv in Hd as (prompt & Hprompt & Hd).
    inversion Hd; subst d; clear Hd.
    rewrite !assemble_lookup_other by discriminate.
    rewrite !(format_stage_lookup_other _ _ _ _ Hd') by discriminate.
    split; [reflexivity|]. split; [|reflexivity].
    exists prompt. split; [done | reflexivity].
Qed.

End WireShape.

(** * The translation of chat messages *)

Lemma await_all_Forall2 {A B : Type} (f : A -> result B) (l : list A) (l' : list B) :
  await_all f l = Ok l' -> Forall2 (fun x y => f x = Ok y) l l'.
Proof.
  revert l'. induction l as [|x l IH]; intros l' Hl; cbn [await_all] in Hl.
  - inversion Hl. constructor.
  - apply bind_Ok_inv in Hl as (y & Hy & Hl).
    apply bind_Ok_inv in Hl as (ys & Hys & Hl).
    inversion Hl; subst. constructor; [done | by apply IH].
Qed.

(** The comprehension ends with the exception of its first failing
    element. *)
Lemma await_all_raise {A B : Type} (f : A -> result B) (l : list A) (x : A) (e : exn) :
  x ∈ l -> f x = Raise e ->
  exists x' e', x' ∈ l /\ f x' = Raise e' /\ await_all f l = Raise e'.
Proof.
  induction l as [|y l IH]; intros Hx Hfx; [by apply elem_of_nil in Hx|].
  cbn [await_all]. destruct (f y) as [b|e0] eqn:Hfy.
  - apply elem_of_cons in Hx as [->|Hx]; [congruence|].
    destruct (IH Hx Hfx) as (x' & e' & Hx' & Hfx' & Hall).
    exists x', e'. split; [by right|]. split; [done|]. by rewrite Hall.
  - exists y, e0. split; [by left|]. done.
Qed.

Lemma await_all_raise_inv {A B : Type} (f : A -> result B) (l : list A) (e : exn) :
  await_all f l = Raise e -> exists x, x ∈ l /\ f x = Raise e.
Proof.
  induction l as [|y l IH]; cbn [await_all]; [discriminate|].
  destruct (f y) as [b|e0] eqn:Hfy; simpl.
  - destruct (await_all f l) as [bs|e1]; [discriminate|]. simpl. intros He.
    destruct IH as (x & Hx & Hfx); [congruence|]. exists x. split; [by right|done].
  - intros He. exists y. split; [by left|congruence].
Qed.

Section Messages.
Context `{H : Host}.

Lemma _convert_content_entry (m : Message) (a : string + InterleavedContentItem)
    (d : gmap string pyval) :
  _convert_content m a = Ok d <-> wire_entry m a d.
Proof.
  unfold _convert_content, wire_entry.
  destruct a as [s|[image|s]]; try (split; congruence).
  split.
  - intros Hd. apply bind_Ok_inv in Hd as (u & Hu & Hd). exists u. split; congruence.
  - intros (u & Hu & ->). by rewrite Hu.
Qed.

Lemma convert_message_atoms (m : Message) (l : list (gmap string pyval)) :
  convert_message_to_openai_dict_for_podman_ai_lab m = Ok l ->
  Forall2 (wire_entry m) (content_atoms (content m)) l.
Proof.
  unfold convert_message_to_openai_dict_for_podman_ai_lab, content_atoms.
  destruct (content m) as [s|c|cs]; intros Hl.
  - apply bind_Ok_inv in Hl as (d & Hd & Hl). inversion Hl; subst.
    constructor; [by apply _convert_content_entry | constructor].
  - apply bind_Ok_inv in Hl as (d & Hd & Hl). inversion Hl; subst.
    constructor; [by apply _convert_content_entry | constructor].
  - apply await_all_Forall2 in Hl. apply Forall2_fmap_l.
    eapply Forall2_impl; [exact Hl|]. intros c d Hd. by apply _convert_content_entry.
Qed.

Lemma content_atoms_length (c : InterleavedContent) :
  length (content_atoms c) = content_items c.
Proof. destruct c; simpl; [done | done | apply length_fmap]. Qed.

Lemma convert_messages_length (messages : list Message)
    (contents : list (list (gmap string pyval))) :
  await_all convert_message_to_openai_dict_for_podman_ai_lab messages = Ok contents ->
  length (concat contents) = total_items messages.
Proof.
  intros Hall. apply await_all_Forall2 in Hall. unfold total_items.
  induction Hall as [|m l messages contents Hm _ IH]; simpl; [done|].
  rewrite length_app. f_equal; [|exact IH].
  apply convert_message_atoms, Forall2_length in Hm.
  by rewrite <- Hm, content_atoms_length.
Qed.

Lemma wire_entry_role (m : Message) (a : string + InterleavedContentItem)
    (d : gmap string pyval) :
  wire_entry m a d -> d !! "role" = Some (VStr (role m)).
Proof.
  unfold wire_entry. destruct a as [s|[image|s]]; [intros ->|intros (u & _ & ->)|intros ->];
    reflexivity.
Qed.

(** A message is translated into one wire message per content value, in
    order: text becomes [role] with [content], an image becomes [role]
    with [images] holding the one resolved URL. *)
Theorem converted_message_follows_content (m : Message)
    (l : list (gmap string pyval)) :
  convert_message_to_openai_dict_for_podman_ai_lab m = Ok l ->
  length l = content_items (content m) /\
  Forall2 (wire_entry m) (content_atoms (content m)) l.
Proof.
  intros Hl. pose proof (convert_message_atoms m l Hl) as Hatoms.
  split; [|done]. apply Forall2_length in Hatoms.
  by rewrite <- Hatoms, content_atoms_length.
Qed.

(** Every wire message of a translated message names the role of that
    message and holds either [content] (and no [images]) or [images]
    (one URL, and no [content]). *)
Theorem converted_entry_content_xor_images (m : Message)
    (l : list (gmap string pyval)) :
  convert_message_to_openai_dict_for_podman_ai_lab m = Ok l ->
  Forall (fun d : gmap string pyval =>
            d !! "role" = Some (VStr (role m)) /\
            ((is_Some (d !! "content") /\ d !! "images" = None) \/
             (d !! "content" = None /\
              exists u, d !! "images" = Some (VList [VStr u])))) l.
Proof.
  intros Hl. apply convert_message_atoms in Hl.
  eapply Forall2_Forall_r; [exact Hl|]. apply Forall_forall.
  intros a _ d Hd. split; [by apply (wire_entry_role m a)|].
  unfold wire_entry in Hd. destruct a as [s|[image|s]].
  - subst d. left. split; [eexists|]; reflexivity.
  - destruct Hd as (u & _ & ->). right. split; [reflexivity|]. by exists u.
  - subst d. left. split; [eexists|]; reflexivity.
Qed.

(** A chat request with media, or with an empty model name, is sent as
    [messages], without [prompt] and [raw]; the list has one entry per
    content value of the messages, each a mapping with a [role]. *)
Theorem chat_media_request_sends_messages (r : ChatCompletionRequest)
    (params : gmap string pyval) :
  request_has_media (ChatRequest r) = true \/ chat_model r = "" ->
  _get_params (ChatRequest r) = Ok params ->
  params !! "prompt" = None /\
  params !! "raw" = None /\
  exists entries,
    params !! "messages" = Some (VList entries) /\
    length entries = total_items (chat_messages r) /\
    Forall (fun e => exists d : gmap string pyval,
                       e = VDict d /\ is_Some (d !! "role")) entries.
Proof.
  intros Hguard Hp.
  apply _get_params_inv in Hp as (d & d' & Hd & Hd' & ->).
  rewrite !assemble_lookup_other by discriminate.
  rewrite !(format_stage_lookup_other _ _ _ _ Hd') by discriminate.
  unfold input_stage in Hd.
  assert (Hg : request_has_media (ChatRequest r)
               || negb (str_truthy (request_model (ChatRequest r))) = true).
  { destruct Hguard as [-> | Hmodel]; [done|].
    simpl. rewrite Hmodel. apply orb_true_r. }
  rewrite Hg in Hd. apply bind_Ok_inv in Hd as (contents & Hall & Hd).
  inversion Hd; subst d; clear Hd.
  split; [reflexivity|]. split; [reflexivity|].
  exists (VDict <$> concat contents). split; [reflexivity|].
  rewrite length_fmap. split; [by apply convert_messages_length|].
  apply Forall_fmap, Forall_concat.
  apply await_all_Forall2 in Hall.
  eapply Forall2_Forall_r; [exact Hall|]. apply Forall_forall.
  intros m _ l Hl. apply convert_message_atoms in Hl.
  eapply Forall2_Forall_r; [exact Hl|]. apply Forall_forall.
  intros a _ e He. exists e. split; [done|].
  rewrite (wire_entry_role m a e He). eauto.
Qed.

End Messages.

(** * Failures of the host helpers *)

Section HelperFailures.
Context `{H : Host} `{T : Transport}.

Lemma _get_params_input_raise (request : Request) (e : exn) :
  input_stage request = Raise e -> _get_params request = Raise e.
Proof. intros He. rewrite _get_params_stages. by rewrite He. Qed.

(** Only the resolution of an image makes [_convert_content] raise. *)
Lemma _convert_content_raise (m : Message) (a : string + InterleavedContentItem)
    (e : exn) :
  _convert_content m a = Raise e ->
  exists image, a = inr (ImageContentItem image) /\
                convert_image_content_to_url image true false = Raise e.
Proof.
  unfold _convert_content. destruct a as [s|[image|s]]; try discriminate.
  intros He. exists image. split; [done|].
  destruct (convert_image_content_to_url image true false); [discriminate|].
  simpl in He. congruence.
Qed.

(** The translation of a message raises only the exception of the
    resolution of one of its images. *)
Lemma convert_message_raise_inv (m : Message) (e : exn) :
  convert_message_to_openai_dict_for_podman_ai_lab m = Raise e ->
  exists image, image ∈ message_images m /\
                convert_image_content_to_url image true false = Raise e.
Proof.
  unfold message_images, convert_message_to_openai_dict_for_podman_ai_lab, content_atoms.
  destruct (content m) as [s|c|cs]; intros Hconv.
  - discriminate.
  - destruct (_convert_content m (inr c)) as [d|e0] eqn:Hfc; [discriminate|].
    simpl in Hconv. inversion Hconv; subst e0.
    apply _convert_content_raise in Hfc as (image & Heq & He).
    inversion Heq; subst c. exists image. split; [|done].
    apply list_elem_of_singleton. done.
  - apply await_all_raise_inv in Hconv as (c & Hc & Hfc).
    apply _convert_content_raise in Hfc as (image & Heq & He).
    inversion Heq; subst c. exists image. split; [|done].
    apply list_elem_of_omap. exists (inr (ImageContentItem image)).
    split; [|done]. apply list_elem_of_fmap. eauto.
Qed.

(** A message with an image that cannot be resolved is not translated. *)
Lemma convert_message_raise (m : Message) (image : Image) (e : exn) :
  image ∈ message_images m ->
  convert_image_content_to_url image true false = Raise e ->
  exists e', convert_message_to_openai_dict_for_podman_ai_lab m = Raise e'.
Proof.
  unfold message_images, convert_message_to_openai_dict_for_podman_ai_lab, content_atoms.
  intros Him He. destruct (content m) as [s|c|cs].
  - by apply elem_of_nil in Him.
  - destruct c as [image0|s]; [|by apply elem_of_nil in Him].
    apply list_elem_of_singleton in Him. subst image0.
    exists e. simpl. by rewrite He.
  - apply list_elem_of_omap in Him as (a & Ha & Himg).
    apply list_elem_of_fmap in Ha as (c & -> & Hc).
    destruct c as [image0|s]; [|discriminate]. simpl in Himg. inversion Himg; subst image0.
    destruct (await_all_raise (fun c => _convert_content m (inr c)) cs
                (ImageContentItem image) e Hc) as (c' & e' & _ & _ & Hall).
    { simpl. by rewrite He. }
    by exists e'.
Qed.

(** When the host cannot resolve an image of a chat request that is sent
    as messages, [_get_params] raises the exception of an image
    resolution, and no serving path calls the transport. *)
Theorem image_resolution_failure_aborts_request (self : PodmanAILabInferenceAdapter)
    (r : ChatCompletionRequest) (m : Message) (image : Image) (e : exn) :
  request_has_media (ChatRequest r) = true \/ chat_model r = "" ->
  m ∈ chat_messages r ->
  image ∈ message_images m ->
  convert_image_content_to_url image true false = Raise e ->
  exists e',
    _get_params (ChatRequest r) = Raise e' /\
    fails_before_transport self (ChatRequest r) e' /\
    exists m' image',
      m' ∈ chat_messages r /\ image' ∈ message_images m' /\
      convert_image_content_to_url image' true false = Raise e'.
Proof.
  intros Hguard Hm Him He.
  destruct (convert_message_raise m image e Him He) as (e1 & Hconv).
  destruct (await_all_raise convert_message_to_openai_dict_for_podman_ai_lab
              (chat_messages r) m e1 Hm Hconv) as (m' & e' & Hm' & Hconv' & Hall).
  assert (Hp : _get_params (ChatRequest r) = Raise e').
  { apply _get_params_input_raise. unfold input_stage.
    assert (Hg : request_has_media (ChatRequest r)
                 || negb (str_truthy (request_model (ChatRequest r))) = true).
    { destruct Hguard as [-> | Hmodel]; [done|].
      simpl. rewrite Hmodel. apply orb_true_r. }
    by rewrite Hg, Hall. }
  exists e'. split; [done|]. split; [by apply _get_params_raise_before_transport|].
  apply convert_message_raise_inv in Hconv' as (image' & Him' & He').
  by exists m', image'.
Qed.

(** When the host cannot render the prompt of a request that is sent as
    a prompt, [_get_params] raises the renderer's exception, whatever
    the response format, and no serving path calls the transport. *)
Theorem prompt_rendering_failure_aborts_request (self : PodmanAILabInferenceAdapter)
    (request : Request) (e : exn) :
  request_has_media request = false ->
  match request with
  | RawRequest r => completion_request_to_prompt r = Raise e
  | ChatRequest r =>
      chat_model r ≠ "" /\ chat_completion_request_to_prompt r (chat_model r) = Raise e
  end ->
  _get_params request = Raise e /\ fails_before_transport self request e.
Proof.
  intros Hmedia Hrender.
  assert (Hp : _get_params request = Raise e).
  { apply _get_params_input_raise. unfold input_stage. rewrite Hmedia.
    destruct request as [r|r].
    - destruct Hrender as [Hmodel Hrender]. simpl.
      destruct (chat_model r) eqn:Hm; [done|]. simpl. by rewrite Hrender.
    - by rewrite Hrender. }
  split; [done|]. by apply _get_params_raise_before_transport.
Qed.

End HelperFailures.

(** * Calls to the transport and their answers *)

Section TransportCalls.
Context `{H : Host} `{T : Transport}.

Lemma chat_or_generate_trace (self : PodmanAILabInferenceAdapter)
    (params : gmap string pyval) (t : list call) :
  snd (chat_or_generate self params t) = (t ++ [chat_call self params])%list.
Proof.
  unfold chat_or_generate, chat_call, mbind, IO_bind, do_chat, do_generate.
  destruct (bool_decide (is_Some (params !! "messages"))).
  - by destruct (client_chat (url self) params).
  - by destruct (client_generate (url self) params).
Qed.

(** The call of a chat request goes to [chat] exactly when the request
    has media or no model name. *)
Lemma chat_call_kind (self : PodmanAILabInferenceAdapter)
    (r : ChatCompletionRequest) (params : gmap string pyval) :
  _get_params (ChatRequest r) = Ok params ->
  chat_call self params =
    if request_has_media (ChatRequest r) || negb (str_truthy (chat_model r))
    then ChatCall (url self) params else GenerateCall (url self) params.
Proof.
  intros Hp. unfold chat_call.
  destruct (_get_params_lookup_input _ params "messages" Hp) as (d & Hd & ->);
    try discriminate.
  unfold input_stage in Hd. simpl in Hd.
  destruct (request_has_media (ChatRequest r) || negb (str_truthy (chat_model r))).
  - apply bind_Ok_inv in Hd as (cs & _ & Hd). inversion Hd; subst.
    rewrite lookup_insert_eq. by rewrite bool_decide_eq_true_2.
  - apply bind_Ok_inv in Hd as (s & _ & Hd). inversion Hd; subst.
    rewrite bool_decide_eq_false_2; [done|]. by intros [? ?].
Qed.

Lemma _nonstream_chat_completion_trace (self : PodmanAILabInferenceAdapter)
    (r : ChatCompletionRequest) (params : gmap string pyval) (t : list call) :
  _get_params (ChatRequest r) = Ok params ->
  snd (_nonstream_chat_completion self r t) = (t ++ [chat_call self params])%list.
Proof.
  intros Hp. unfold _nonstream_chat_completion, mbind at 1, IO_bind at 1, lift at 1.
  rewrite Hp. unfold mbind at 1, IO_bind at 1.
  pose proof (chat_or_generate_trace self params t) as Ht.
  destruct (chat_or_generate self params t) as [[[a|s]|e] t']; simpl in Ht; by subst t'.
Qed.

Lemma _stream_chat_completion_trace (self : PodmanAILabInferenceAdapter)
    (r : ChatCompletionRequest) (params : gmap string pyval) (t : list call) :
  _get_params (ChatRequest r) = Ok params ->
  snd (_stream_chat_completion self r t) = (t ++ [chat_call self params])%list.
Proof.
  intros Hp. unfold _stream_chat_completion, _generate_and_convert_to_openai_compat_chat.
  rewrite Hp.
  pose proof (chat_or_generate_trace self params t) as Ht.
  destruct (chat_or_generate self params t) as [[[a|s]|e] t']; simpl in Ht; by subst t'.
Qed.

(** A chat request whose parameters could be built makes exactly one
    transport call, on either path, with exactly those parameters:
    [chat] when the request has media or no model name, [generate]
    otherwise. *)
Theorem chat_request_single_call (self : PodmanAILabInferenceAdapter)
    (r : ChatCompletionRequest) (params : gmap string pyval) (t : list call) :
  _get_params (ChatRequest r) = Ok params ->
  let c := if request_has_media (ChatRequest r) || negb (str_truthy (chat_model r))
           then ChatCall (url self) params else GenerateCall (url self) params in
  snd (_nonstream_chat_completion self r t) = (t ++ [c])%list /\
  snd (_stream_chat_completion self r t) = (t ++ [c])%list.
Proof.
  intros Hp c. unfold c. rewrite <- (chat_call_kind self r params Hp).
  split; [by apply _nonstream_chat_completion_trace | by apply _stream_chat_completion_trace].
Qed.

(** A raw completion request whose parameters could be built makes
    exactly one [generate] call, on either path, with exactly those
    parameters, to the configured URL. *)
Theorem raw_request_single_call (self : PodmanAILabInferenceAdapter)
    (r : CompletionRequest) (params : gmap string pyval) (t : list call) :
  _get_params (RawRequest r) = Ok params ->
  snd (_nonstream_completion self r t) = (t ++ [GenerateCall (url self) params])%list /\
  snd (_stream_completion self r t) = (t ++ [GenerateCall (url self) params])%list.
Proof.
  intros Hp.
  split; [by apply _nonstream_completion_call | by apply _stream_completion_call].
Qed.

(** An exception of [client.generate] is not handled: the non-streaming
    path raises it, and the streaming path hands the host's stream
    processing a generator that raises it before its first item. *)
Theorem transport_error_propagates (self : PodmanAILabInferenceAdapter)
    (r : CompletionRequest) (params : gmap string pyval) (e : exn) (t : list call) :
  _get_params (RawRequest r) = Ok params ->
  client_generate (url self) params = Raise e ->
  _nonstream_completion self r t =
    (Raise e, (t ++ [GenerateCall (url self) params])%list) /\
  _stream_completion self r t =
    (process_completion_stream_response (Stream [] (Some e)),
     (t ++ [GenerateCall (url self) params])%list).
Proof.
  intros Hp He. split.
  - unfold _nonstream_completion, mbind, IO_bind, lift, do_generate. by rewrite Hp, He.
  - unfold _stream_completion, _generate_and_convert_to_openai_compat, do_generate.
    by rewrite Hp, He.
Qed.

(** The streaming path turns every chunk of the transport into one
    response with a single choice, in order: its text is the chunk's
    [response], its finish reason the chunk's [done_reason] if the chunk
    is [done] and none otherwise.  A failure of the transport in the
    middle of the stream is kept after the chunks already received. *)
Theorem stream_chunks_converted_in_order (self : PodmanAILabInferenceAdapter)
    (r : CompletionRequest) (params : gmap string pyval)
    (chunks : list GenerateResponse) (fail : option exn) (t : list call) :
  _get_params (RawRequest r) = Ok params ->
  client_generate (url self) params = Ok (Streamed (Stream chunks fail)) ->
  exists s : list OpenAICompatCompletionResponse,
    fst (_stream_completion self r t) =
      process_completion_stream_response (Stream s fail) /\
    Forall2 (fun chunk response =>
               choices response =
                 [ {| finish_reason := if gen_done chunk then gen_done_reason chunk
                                       else None;
                      text := gen_response chunk |} ])
            chunks s.
Proof.
  intros Hp Hs.
  exists ((fun chunk => wrap (choice_of_generate chunk)) <$> chunks). split.
  - unfold _stream_completion, _generate_and_convert_to_openai_compat, do_generate.
    by rewrite Hp, Hs.
  - apply Forall2_fmap_r, Forall_Forall2_diag, Forall_forall. by intros chunk _.
Qed.

(** The answer of a chat request is read by its shape: from [chat] the
    text is the content of the message, from [generate] it is the
    response; in both the finish reason is the [done_reason] if the
    answer is [done], and none otherwise. *)
Theorem chat_answer_by_shape (self : PodmanAILabInferenceAdapter)
    (r : ChatCompletionRequest) (params : gmap string pyval) (t : list call) :
  _get_params (ChatRequest r) = Ok params ->
  (is_Some (params !! "messages") ->
   forall a, client_chat (url self) params = Ok (Single a) ->
     fst (_nonstream_chat_completion self r t) =
       Ok (process_chat_completion_response
             {| choices := [ {| finish_reason := if chat_done a then chat_done_reason a
                                                 else None;
                                text := chat_message_content a |} ] |} r)) /\
  (params !! "messages" = None ->
   forall a, client_generate (url self) params = Ok (Single a) ->
     fst (_nonstream_chat_completion self r t) =
       Ok (process_chat_completion_response
             {| choices := [ {| finish_reason := if gen_done a then gen_done_reason a
                                                 else None;
                                text := gen_response a |} ] |} r)).
Proof.
  intros Hp. split.
  - intros Hm a Ha.
    unfold _nonstream_chat_completion, mbind, IO_bind, lift, chat_or_generate, do_chat.
    rewrite Hp. rewrite bool_decide_eq_true_2 by done.
    unfold mbind, IO_bind. by rewrite Ha.
  - intros Hm a Ha.
    unfold _nonstream_chat_completion, mbind, IO_bind, lift, chat_or_generate, do_generate.
    rewrite Hp. rewrite bool_decide_eq_false_2 by (rewrite Hm; by intros [? ?]).
    unfold mbind, IO_bind. by rewrite Ha.
Qed.

(** [initialize] returns normally exactly when the probe does. *)
Theorem initialize_succeeds_iff_probe_succeeds (self : PodmanAILabInferenceAdapter)
    (t : list call) :
  fst (initialize self t) = Ok tt <-> client_list (url self) = Ok tt.
Proof.
  unfold initialize, do_list.
  destruct (client_list (url self)) as [[]|e]; simpl; [done|].
  destruct (is_ConnectionError e); simpl; split; discriminate.
Qed.


End TransportCalls.

(** * The entry points *)

Section EntryPoints.
Context `{H : Host} `{T : Transport}.

(** When the model store does not know the model, [completion] raises
    the store's exception at once, also for a streaming request, and
    calls nothing. *)
Theorem completion_model_lookup_failure (self : PodmanAILabInferenceAdapter)
    (model_id : string) (content : InterleavedContent)
    (sampling_params : option SamplingParams)
    (response_format : option ResponseFormat)
    (stream : option bool) (logprobs : option LogProbConfig)
    (e : exn) (t : list call) :
  model_store_get_model model_id = Raise e ->
  completion self model_id content sampling_params response_format stream logprobs t
    = (Raise e, t).
Proof.
  intros Hmodel. unfold completion, mbind, IO_bind, lift. by rewrite Hmodel.
Qed.

(** A streaming [completion] returns a generator and has called nothing
    yet: parameters are built and the transport is called only when the
    generator is consumed.  The generator is the streaming path of the
    request whose model is the provider resource id of the stored
    model. *)
Theorem completion_streaming_is_lazy (self : PodmanAILabInferenceAdapter)
    (model_id : string) (content : InterleavedContent)
    (sampling_params : option SamplingParams)
    (response_format : option ResponseFormat)
    (stream : option bool) (logprobs : option LogProbConfig)
    (model : Model) (t : list call) :
  model_store_get_model model_id = Ok model ->
  opt_truthy stream = true ->
  completion self model_id content sampling_params response_format stream logprobs t
    = (Ok (Lazy (_stream_completion self
                   (completion_request model content sampling_params response_format
                                       stream logprobs))), t).
Proof.
  intros Hmodel Hstream. unfold completion, mbind, IO_bind, lift.
  rewrite Hmodel. cbv beta iota. by rewrite Hstream.
Qed.

(** A non-streaming [completion] (the flag is false or missing) makes
    one [generate] call, whose parameters name the provider resource id
    of the stored model and repeat the flag. *)
Theorem completion_nonstreaming_call (self : PodmanAILabInferenceAdapter)
    (model_id : string) (content : InterleavedContent)
    (sampling_params : option SamplingParams)
    (response_format : option ResponseFormat)
    (stream : option bool) (logprobs : option LogProbConfig)
    (model : Model) (params : gmap string pyval) (t : list call) :
  model_store_get_model model_id = Ok model ->
  opt_truthy stream = false ->
  _get_params (RawRequest (completion_request model content sampling_params
                             response_format stream logprobs)) = Ok params ->
  snd (completion self model_id content sampling_params response_format stream logprobs t)
    = (t ++ [GenerateCall (url self) params])%list /\
  params !! "model" = Some (VStr (provider_resource_id model)) /\
  params !! "stream" = Some (of_opt_bool stream).
Proof.
  intros Hmodel Hstream Hp. split; [|split].
  - unfold completion, mbind at 1, IO_bind at 1, lift at 1.
    rewrite Hmodel. cbv beta iota. rewrite Hstream.
    fold (completion_request model content sampling_params response_format stream logprobs).
    unfold mbind, IO_bind.
    pose proof (_nonstream_completion_call self _ params t Hp) as Ht.
    destruct (_nonstream_completion self _ t) as [[a|e] t']; simpl in Ht; by subst t'.
  - by rewrite (_get_params_lookup_model _ params Hp).
  - apply _get_params_inv in Hp as (d & d' & _ & _ & ->). apply assemble_lookup_stream.
Qed.

(** A streaming [chat_completion] returns a generator and has called
    nothing yet; the model store is not consulted. *)
Theorem chat_completion_streaming_is_lazy (self : PodmanAILabInferenceAdapter)
    (model_id : string) (messages : list Message)
    (sampling_params : option SamplingParams)
    (response_format : option ResponseFormat)
    (tools : option (list ToolDefinition))
    (tool_choice : option ToolChoice)
    (tool_prompt_format : option ToolPromptFormat)
    (stream : option bool) (logprobs : option LogProbConfig)
    (tool_config : option ToolConfig) (t : list call) :
  opt_truthy stream = true ->
  chat_completion self model_id messages sampling_params response_format tools
    tool_choice tool_prompt_format stream logprobs tool_config t
    = (Ok (Lazy (_stream_chat_completion self
                   (chat_request model_id messages sampling_params response_format
                                 tools stream logprobs tool_config))), t).
Proof. intros Hstream. unfold chat_completion. by rewrite Hstream. Qed.

(** A non-streaming [chat_completion] makes one call, to [chat] or to
    [generate], whose parameters name the model id as it was given. *)
Theorem chat_completion_nonstreaming_call (self : PodmanAILabInferenceAdapter)
    (model_id : string) (messages : list Message)
    (sampling_params : option SamplingParams)
    (response_format : option ResponseFormat)
    (tools : option (list ToolDefinition))
    (tool_choice : option ToolChoice)
    (tool_prompt_format : option ToolPromptFormat)
    (stream : option bool) (logprobs : option LogProbConfig)
    (tool_config : option ToolConfig)
    (params : gmap string pyval) (t : list call) :
  opt_truthy stream = false ->
  _get_params (ChatRequest (chat_request model_id messages sampling_params
                              response_format tools stream logprobs tool_config))
    = Ok params ->
  (exists c,
     snd (chat_completion self model_id messages sampling_params response_format tools
            tool_choice tool_prompt_format stream logprobs tool_config t)
       = (t ++ [c])%list /\
     (c = ChatCall (url self) params \/ c = GenerateCall (url self) params)) /\
  params !! "model" = Some (VStr model_id).
Proof.
  intros Hstream Hp. split.
  - exists (chat_call self params). split.
    + unfold chat_completion. rewrite Hstream.
      fold (chat_request model_id messages sampling_params response_format
                         tools stream logprobs tool_config).
      unfold mbind, IO_bind.
      pose proof (_nonstream_chat_completion_trace self _ params t Hp) as Ht.
      destruct (_nonstream_chat_completion self _ t) as [[a|e] t']; simpl in Ht; by subst t'.
    + unfold chat_call. destruct (bool_decide _); eauto.
  - by rewrite (_get_params_lookup_model _ params Hp).
Qed.

End EntryPoints.

(** * Concrete runs *)

(** With a non-empty model name a text-only chat request is sent as a
    raw prompt, without [messages]; with an empty model name, a single
    message whose content is a list of two text items becomes two wire
    messages. *)
Lemma chat_text_request_counterexample :
  (let r := ex_chat "llama3" [ex_message "user" (ContentStr "hi")] None None in
   text_only (chat_messages r) = true /\
   exists params,
     _get_params (H := ex_host) (ChatRequest r) = Ok params /\
     params !! "messages" = None /\
     params !! "prompt" = Some (VStr "user: hi;")) /\
  (let r := ex_chat "" [ex_message "user" (ContentList [ex_text "a"; ex_text "b"])]
              None None in
   text_only (chat_messages r) = true /\
   length (chat_messages r) = 1 /\
   exists params entries,
     _get_params (H := ex_host) (ChatRequest r) = Ok params /\
     params !! "messages" = Some (VList entries) /\
     length entries = 2).
Proof.
  split.
  - split; [reflexivity|]. eexists. split; [vm_compute; reflexivity|].
    split; reflexivity.
  - split; [reflexivity|]. split; [reflexivity|]. eexists. eexists.
    split; [vm_compute; reflexivity|]. split; reflexivity.
Qed.

Lemma chat_text_request_without_model_witness :
  let r := ex_chat "" [ex_message "system" (ContentStr "be brief");
                       ex_message "user" (ContentItem (ex_text "hi"))] None None in
  exists params entries,
    _get_params (H := ex_host) (ChatRequest r) = Ok params /\
    params !! "prompt" = None /\
    params !! "messages" = Some (VList entries) /\
    length entries = 2 /\
    Forall role_content_entry entries.
Proof.
  intros r.
  destruct (chat_text_request_without_model_sends_messages (H := ex_host) r)
    as [Hret Hshape]; [reflexivity | reflexivity |].
  destruct (Hret eq_refl) as [params Hp].
  destruct (Hshape params Hp) as (Hprompt & entries & Hm & _ & Hlen & Hall).
  exists params, entries. repeat split; try done. by apply Hlen.
Defined.

Lemma chat_text_request_sends_raw_prompt_witness :
  let r := ex_chat "llama3" [ex_message "user" (ContentStr "hi")] None None in
  exists params,
    _get_params (H := ex_host) (ChatRequest r) = Ok params /\
    params !! "raw" = Some (VBool true) /\
    params !! "prompt" = Some (VStr "user: hi;") /\
    params !! "messages" = None.
Proof.
  intros r.
  destruct (chat_text_request_sends_raw_prompt (H := ex_host) r)
    as [Hret Hshape]; [reflexivity | discriminate |].
  destruct (Hret "user: hi;" eq_refl eq_refl) as [params Hp].
  destruct (Hshape params Hp) as (Hraw & (prompt & Hprompt & Hlook) & Hm).
  exists params. repeat split; try done.
  rewrite Hlook. f_equal. f_equal. vm_compute in Hprompt. congruence.
Defined.

Lemma max_tokens_sets_num_predict_witness :
  let request := RawRequest (ex_raw "llama3" (ContentStr "Once") (Some 128%Z) None false) in
  exists params o,
    _get_params (H := ex_host) request = Ok params /\
    params !! "options" = Some (VDict o) /\
    o !! "num_predict" = Some (VInt 128).
Proof.
  intros request.
  destruct (_get_params (H := ex_host) request) as [params|e] eqn:Hp;
    [|vm_compute in Hp; discriminate].
  destruct (max_tokens_sets_num_predict (H := ex_host) request params (VInt 128))
    as (o & Ho & Hn); [reflexivity | discriminate | exact Hp |].
  by exists params, o.
Defined.

(** The wire options of a request with [max_tokens = 128] hold
    [num_predict = 128] and still hold [max_tokens = 128]. *)
Lemma max_tokens_still_present :
  let request := ChatRequest (ex_chat "llama3" [ex_message "user" (ContentStr "hi")]
                                (Some 128%Z) None) in
  get_sampling_options (Host := ex_host) (request_sampling_params request) !! "max_tokens"
    = Some (VInt 128) /\
  exists params o,
    _get_params (H := ex_host) request = Ok params /\
    params !! "options" = Some (VDict o) /\
    o !! "num_predict" = Some (VInt 128) /\
    o !! "max_tokens" = Some (VInt 128).
Proof.
  split; [reflexivity|]. eexists. eexists.
  split; [vm_compute; reflexivity|]. repeat split; reflexivity.
Qed.

Lemma max_tokens_copied_to_num_predict_witness :
  let request := ChatRequest (ex_chat "llama3" [ex_message "user" (ContentStr "hi")]
                                (Some 128%Z) None) in
  exists params o,
    _get_params (H := ex_host) request = Ok params /\
    params !! "options" = Some (VDict o) /\
    o !! "num_predict" = Some (VInt 128) /\
    o !! "max_tokens" = Some (VInt 128).
Proof.
  intros request.
  destruct (_get_params (H := ex_host) request) as [params|e] eqn:Hp;
    [|vm_compute in Hp; discriminate].
  destruct (max_tokens_copied_to_num_predict (H := ex_host) request params (VInt 128))
    as (o & Ho & _ & Hn & Hm & _); [reflexivity | discriminate | exact Hp |].
  by exists params, o.
Defined.

Lemma exactly_one_of_prompt_messages_witness :
  let request := ChatRequest (ex_chat "llama3"
                                [ex_message "user" (ContentList [ex_text "what is this";
                                                                 ex_image "cat.png"])]
                                None None) in
  exists params,
    _get_params (H := ex_host) request = Ok params /\
    ((is_Some (params !! "prompt") /\ params !! "messages" = None) \/
     (params !! "prompt" = None /\ is_Some (params !! "messages"))).
Proof.
  intros request.
  destruct (_get_params (H := ex_host) request) as [params|e] eqn:Hp;
    [|vm_compute in Hp; discriminate].
  exists params. split; [reflexivity|].
  exact (exactly_one_of_prompt_messages (H := ex_host) request params Hp).
Defined.


Lemma raw_completion_with_media_fails_witness :
  let r := ex_raw "llama3" (ContentList [ex_text "describe"; ex_image "cat.png"])
             None None false in
  let e := AssertionError "Ollama does not support media for Completion requests" in
  _nonstream_completion (H := ex_host) (T := ex_transport (Ok tt) ex_chunks) ex_self r []
    = (Raise e, []) /\
  _stream_completion (H := ex_host) (T := ex_transport (Ok tt) ex_chunks) ex_self r []
    = (Stream [] (Some e), []).
Proof.
  intros r e.
  destruct (raw_completion_with_media_fails (H := ex_host)
              (T := ex_transport (Ok tt) ex_chunks) ex_self r) as [_ Hpaths];
    [reflexivity|].
  exact (Hpaths []).
Defined.

Lemma initialize_unreachable_witness :
  initialize (T := ex_transport (Raise (ConnectionError "connection refused")) [])
    ex_self []
  = (Raise (RuntimeError
              "Podman AI Lab Server is not running, start it using Podman Desktop"
              (Some (ConnectionError "connection refused"))),
     [ListCall "http://localhost:10434"]).
Proof.
  exact (initialize_unreachable
           (T := ex_transport (Raise (ConnectionError "connection refused")) [])
           ex_self (ConnectionError "connection refused") [] eq_refl eq_refl).
Defined.

Lemma streaming_matches_nonstreaming_witness :
  let T := ex_transport (Ok tt) ex_chunks in
  exists response s,
    fst (_nonstream_completion (H := ex_host) (T := T) ex_self
           (ex_raw "llama3" (ContentStr "Say hello") None None false) [])
      = Ok response /\
    fst (_stream_completion (H := ex_host) (T := T) ex_self
           (ex_raw "llama3" (ContentStr "Say hello") None None true) [])
      = Stream s None /\
    length s = 3 /\
    response_text response = stream_text s /\
    response_finish_reason response = stream_finish_reason s.
Proof.
  intros T.
  destruct (_get_params (H := ex_host)
              (RawRequest (ex_raw "llama3" (ContentStr "Say hello") None None true)))
    as [ps|e] eqn:Hps; [|vm_compute in Hps; discriminate].
  destruct (_get_params (H := ex_host)
              (RawRequest (ex_raw "llama3" (ContentStr "Say hello") None None false)))
    as [pn|e] eqn:Hpn; [|vm_compute in Hpn; discriminate].
  destruct (streaming_matches_nonstreaming (H := ex_host) (T := T) ex_self
              (ex_raw "llama3" (ContentStr "Say hello") None None true)
              (ex_raw "llama3" (ContentStr "Say hello") None None false)
              ps pn ex_chunks [] Hps Hpn)
    as (response & s & Hn & Hs & Hlen & Htext & Hfin).
  - vm_compute in Hps. inversion Hps; subst ps. reflexivity.
  - vm_compute in Hpn. inversion Hpn; subst pn. reflexivity.
  - exists response, s. rewrite Hn, Hs. repeat split; done.
Defined.

(** * More concrete runs *)

(** [built_params req params Hp] runs [_get_params] of the example host
    on [req], stage by stage, and names what it returns. *)
Ltac built_params req params Hp :=
  let Hd := fresh "Hd" in
  let d := fresh "d" in
  assert (Hd : { d : gmap string pyval | input_stage (H := ex_host) req = Ok d })
    by (eexists; hnf; reflexivity);
  destruct Hd as [d Hd];
  destruct (_get_params_returns (H := ex_host) req d Hd eq_refl) as [params Hp];
  clear Hd.

Lemma wire_params_model_stream_options_witness :
  let request := RawRequest (ex_raw "llama3" (ContentStr "Once") (Some 64%Z) None true) in
  exists params,
    _get_params (H := ex_host) request = Ok params /\
    params !! "model" = Some (VStr "llama3") /\
    params !! "stream" = Some (VBool true) /\
    exists o : gmap string pyval, params !! "options" = Some (VDict o).
Proof.
  intros request.
  built_params (request) params Hp.
  exists params. split; [exact Hp|].
  exact (wire_params_model_stream_options (H := ex_host) request params Hp).
Defined.

Lemma wire_params_key_set_witness :
  let request := RawRequest (ex_raw "llama3" (ContentStr "Once") None
                               (Some ex_json_schema) false) in
  exists params,
    _get_params (H := ex_host) request = Ok params /\
    is_Some (params !! "model") /\
    "model" ∈ wire_keys.
Proof.
  intros request.
  built_params request params Hp.
  assert (Hk : is_Some (params !! "model")).
  { rewrite (_get_params_lookup_model (H := ex_host) request params Hp). by eexists. }
  exists params. split; [exact Hp|]. split; [exact Hk|].
  exact (wire_params_key_set (H := ex_host) request params "model" Hp Hk).
Defined.

Lemma raw_accompanies_prompt_witness :
  let request := ChatRequest (ex_chat "llama3" [ex_message "user" (ContentStr "hi")]
                                None None) in
  exists params,
    _get_params (H := ex_host) request = Ok params /\
    (is_Some (params !! "prompt") <-> params !! "raw" = Some (VBool true)) /\
    (is_Some (params !! "messages") <-> params !! "raw" = None).
Proof.
  intros request.
  built_params (request) params Hp.
  exists params. split; [exact Hp|].
  exact (raw_accompanies_prompt (H := ex_host) request params Hp).
Defined.

Lemma options_unchanged_without_max_tokens_witness :
  let request := RawRequest (ex_raw "llama3" (ContentStr "Once") None None false) in
  exists params,
    _get_params (H := ex_host) request = Ok params /\
    params !! "options" = Some (VDict ∅).
Proof.
  intros request.
  built_params (request) params Hp.
  exists params. split; [exact Hp|].
  exact (options_unchanged_without_max_tokens (H := ex_host) request params
           (or_introl eq_refl) Hp).
Defined.

Lemma format_key_follows_response_format_witness :
  let request := ChatRequest (ex_chat "llama3" [ex_message "user" (ContentStr "hi")]
                                None None) in
  exists params,
    _get_params (H := ex_host) request = Ok params /\ params !! "format" = None.
Proof.
  intros request.
  built_params (request) params Hp.
  exists params. split; [exact Hp|].
  exact (format_key_follows_response_format (H := ex_host) request params Hp).
Defined.

Lemma raw_completion_sends_raw_prompt_witness :
  let r := ex_raw "llama3" (ContentStr "Once upon") None None false in
  exists params,
    _get_params (H := ex_host) (RawRequest r) = Ok params /\
    params !! "raw" = Some (VBool true) /\
    params !! "prompt" = Some (VStr "Once upon") /\
    params !! "messages" = None.
Proof.
  intros r.
  destruct (raw_completion_sends_raw_prompt (H := ex_host) r) as [Hret Hshape];
    [reflexivity|].
  destruct (Hret "Once upon" eq_refl eq_refl) as [params Hp].
  destruct (Hshape params Hp) as (Hraw & (prompt & Hprompt & Hlook) & Hm).
  exists params. repeat split; try done.
  rewrite Hlook. f_equal. f_equal. vm_compute in Hprompt. congruence.
Defined.

Lemma converted_message_follows_content_witness :
  let m := ex_message "user" (ContentList [ex_text "what is this"; ex_image "cat.png"]) in
  exists l,
    convert_message_to_openai_dict_for_podman_ai_lab (H := ex_host) m = Ok l /\
    length l = 2 /\
    Forall2 (wire_entry (H := ex_host) m)
      [inr (ex_text "what is this"); inr (ex_image "cat.png")] l.
Proof.
  intros m.
  assert (Hx : { l | convert_message_to_openai_dict_for_podman_ai_lab (H := ex_host) m
                     = Ok l }) by (eexists; hnf; reflexivity).
  destruct Hx as [l Hl].
  exists l. split; [exact Hl|].
  exact (converted_message_follows_content (H := ex_host) m l Hl).
Defined.

Lemma converted_entry_content_xor_images_witness :
  let m := ex_message "user" (ContentList [ex_text "what is this"; ex_image "cat.png"]) in
  exists l,
    convert_message_to_openai_dict_for_podman_ai_lab (H := ex_host) m = Ok l /\
    Forall (fun d : gmap string pyval =>
              d !! "role" = Some (VStr "user") /\
              ((is_Some (d !! "content") /\ d !! "images" = None) \/
               (d !! "content" = None /\
                exists u, d !! "images" = Some (VList [VStr u])))) l.
Proof.
  intros m.
  assert (Hx : { l | convert_message_to_openai_dict_for_podman_ai_lab (H := ex_host) m
                     = Ok l }) by (eexists; hnf; reflexivity).
  destruct Hx as [l Hl].
  exists l. split; [exact Hl|].
  exact (converted_entry_content_xor_images (H := ex_host) m l Hl).
Defined.

Lemma chat_media_request_sends_messages_witness :
  let r := ex_chat "llama3"
             [ex_message "system" (ContentStr "be brief");
              ex_message "user" (ContentList [ex_text "what is this"; ex_image "cat.png"])]
             None None in
  exists params entries,
    _get_params (H := ex_host) (ChatRequest r) = Ok params /\
    params !! "prompt" = None /\
    params !! "raw" = None /\
    params !! "messages" = Some (VList entries) /\
    length entries = 3.
Proof.
  intros r.
  built_params ((ChatRequest r)) params Hp.
  destruct (chat_media_request_sends_messages (H := ex_host) r params
              (or_introl eq_refl) Hp) as (Hprompt & Hraw & entries & Hm & Hlen & _).
  exists params, entries. repeat split; done.
Defined.

Lemma image_resolution_failure_aborts_request_witness :
  let e := OtherError "HTTPError" "404" in
  let m := ex_message "user" (ContentList [ex_text "what is this"; ex_image "cat.png"]) in
  let r := ex_chat "llama3" [m] None None in
  _get_params (H := ex_host_failing e) (ChatRequest r) = Raise e /\
  fails_before_transport (H := ex_host_failing e) (T := ex_transport (Ok tt) ex_chunks)
    ex_self (ChatRequest r) e.
Proof.
  intros e m r.
  destruct (image_resolution_failure_aborts_request (H := ex_host_failing e)
              (T := ex_transport (Ok tt) ex_chunks) ex_self r m
              ("cat.png" : @Image ex_types) e)
    as (e' & Hp & Hfail & m' & image' & _ & _ & He').
  - left. reflexivity.
  - apply list_elem_of_singleton. reflexivity.
  - vm_compute. apply list_elem_of_singleton. reflexivity.
  - reflexivity.
  - simpl in He'. inversion He'; subst e'. by split.
Defined.

Lemma prompt_rendering_failure_aborts_request_witness :
  let e := ValueError "unknown chat template" in
  let request := ChatRequest (ex_chat "llama3" [ex_message "user" (ContentStr "hi")]
                                None (Some ex_grammar)) in
  _get_params (H := ex_host_failing e) request = Raise e /\
  fails_before_transport (H := ex_host_failing e) (T := ex_transport (Ok tt) ex_chunks)
    ex_self request e.
Proof.
  intros e request.
  apply (prompt_rendering_failure_aborts_request (H := ex_host_failing e)
           (T := ex_transport (Ok tt) ex_chunks) ex_self request e).
  - reflexivity.
  - split; [discriminate | reflexivity].
Defined.

Lemma chat_request_single_call_witness :
  let T := ex_transport (Ok tt) ex_chunks in
  let with_image :=
    ex_chat "llama3" [ex_message "user" (ContentItem (ex_image "cat.png"))] None None in
  let text_only_request :=
    ex_chat "llama3" [ex_message "user" (ContentStr "hi")] None None in
  (exists params,
     snd (_nonstream_chat_completion (H := ex_host) (T := T) ex_self with_image [])
       = [ChatCall "http://localhost:10434" params]) /\
  (exists params,
     snd (_stream_chat_completion (H := ex_host) (T := T) ex_self text_only_request [])
       = [GenerateCall "http://localhost:10434" params]).
Proof.
  intros T with_image text_only_request. split.
  - built_params ((ChatRequest with_image)) params Hp.
    exists params.
    exact (proj1 (chat_request_single_call (H := ex_host) (T := T) ex_self
                    with_image params [] Hp)).
  - built_params ((ChatRequest text_only_request)) params Hp.
    exists params.
    exact (proj2 (chat_request_single_call (H := ex_host) (T := T) ex_self
                    text_only_request params [] Hp)).
Defined.

Lemma raw_request_single_call_witness :
  let T := ex_transport (Ok tt) ex_chunks in
  let r := ex_raw "llama3" (ContentStr "Once") None None false in
  exists params,
    _get_params (H := ex_host) (RawRequest r) = Ok params /\
    snd (_nonstream_completion (H := ex_host) (T := T) ex_self r [])
      = [GenerateCall "http://localhost:10434" params] /\
    snd (_stream_completion (H := ex_host) (T := T) ex_self r [])
      = [GenerateCall "http://localhost:10434" params].
Proof.
  intros T r.
  built_params ((RawRequest r)) params Hp.
  exists params. split; [exact Hp|].
  exact (raw_request_single_call (H := ex_host) (T := T) ex_self r params [] Hp).
Defined.

Lemma transport_error_propagates_witness :
  let e := ConnectionError "connection reset" in
  let T := ex_transport_failing e in
  let r := ex_raw "llama3" (ContentStr "Once") None None false in
  fst (_nonstream_completion (H := ex_host) (T := T) ex_self r []) = Raise e /\
  fst (_stream_completion (H := ex_host) (T := T) ex_self r []) = Stream [] (Some e).
Proof.
  intros e T r.
  built_params ((RawRequest r)) params Hp.
  destruct (transport_error_propagates (H := ex_host) (T := T) ex_self r params e []
              Hp eq_refl) as [-> ->].
  split; reflexivity.
Defined.

Lemma stream_chunks_converted_in_order_witness :
  let e := ConnectionError "connection reset" in
  let T := ex_transport_broken ex_chunks e in
  let r := ex_raw "llama3" (ContentStr "Say hello") None None true in
  exists s,
    fst (_stream_completion (H := ex_host) (T := T) ex_self r []) = Stream s (Some e) /\
    length s = 3.
Proof.
  intros e T r.
  built_params ((RawRequest r)) params Hp.
  destruct (stream_chunks_converted_in_order (H := ex_host) (T := T) ex_self r params
              ex_chunks (Some e) [] Hp eq_refl) as (s & Hs & Hall).
  exists s. split; [exact Hs|].
  apply Forall2_length in Hall. symmetry. exact Hall.
Defined.

Lemma chat_answer_by_shape_witness :
  let T := ex_transport (Ok tt) ex_chunks in
  let r := ex_chat "llama3" [ex_message "user" (ContentItem (ex_image "cat.png"))]
             None None in
  fst (_nonstream_chat_completion (H := ex_host) (T := T) ex_self r [])
    = Ok {| choices := [ {| finish_reason := Some "stop"; text := "ok" |} ] |}.
Proof.
  intros T r.
  built_params (ChatRequest r) params Hp.
  assert (Hm : is_Some (params !! "messages")).
  { destruct (_get_params_lookup_input (H := ex_host) (ChatRequest r) params "messages" Hp)
      as (d' & Hd' & ->); try discriminate.
    hnf in Hd'. injection Hd' as <-. rewrite lookup_insert_eq. by eexists. }
  destruct (chat_answer_by_shape (H := ex_host) (T := T) ex_self r params [] Hp)
    as [Hchat _].
  apply (Hchat Hm {| chat_done := true; chat_done_reason := Some "stop";
                     chat_message_content := "ok" |}).
  reflexivity.
Defined.


Lemma completion_model_lookup_failure_witness :
  let e := ValueError "Model 'nope' not found" in
  completion (H := ex_host_failing e) (T := ex_transport (Ok tt) ex_chunks) ex_self
    "nope" (ContentStr "Once") None None (Some true) None []
    = (Raise e, []).
Proof.
  intros e.
  exact (completion_model_lookup_failure (H := ex_host_failing e)
           (T := ex_transport (Ok tt) ex_chunks) ex_self
           "nope" (ContentStr "Once") None None (Some true) None e [] eq_refl).
Defined.

Lemma completion_streaming_is_lazy_witness :
  exists g,
    completion (H := ex_host) (T := ex_transport (Ok tt) ex_chunks) ex_self
      "llama3" (ContentStr "Once") None None (Some true) None []
      = (Ok (Lazy g), []) /\
    snd (g []) = [GenerateCall "http://localhost:10434"
                    (<["stream" := VBool true]>
                       (<["options" := VDict ∅]>
                          (<["raw" := VBool true]>
                             (<["prompt" := VStr "Once"]>
                                (<["model" := VStr "llama3"]> ∅)))))].
Proof.
  eexists. split.
  - exact (completion_streaming_is_lazy (H := ex_host)
             (T := ex_transport (Ok tt) ex_chunks) ex_self
             "llama3" (ContentStr "Once") None None (Some true) None
             ("llama3" : @Model ex_types) [] eq_refl eq_refl).
  - vm_compute. reflexivity.
Defined.

Lemma completion_nonstreaming_call_witness :
  exists params,
    snd (completion (H := ex_host) (T := ex_transport (Ok tt) ex_chunks) ex_self
           "llama3" (ContentStr "Once") None None None None [])
      = [GenerateCall "http://localhost:10434" params] /\
    params !! "model" = Some (VStr "llama3") /\
    params !! "stream" = Some VNone.
Proof.
  built_params ((RawRequest (completion_request (H := ex_host) ("llama3" : @Model ex_types)
                             (ContentStr "Once") None None None None))) params Hp.
  exists params.
  exact (completion_nonstreaming_call (H := ex_host)
           (T := ex_transport (Ok tt) ex_chunks) ex_self
           "llama3" (ContentStr "Once") None None None None
           ("llama3" : @Model ex_types) params [] eq_refl eq_refl Hp).
Defined.

Lemma chat_completion_streaming_is_lazy_witness :
  exists g,
    chat_completion (H := ex_host) (T := ex_transport (Ok tt) ex_chunks) ex_self
      "llama3" [ex_message "user" (ContentStr "hi")] None None None None None
      (Some true) None None []
    = (Ok (Lazy g), []).
Proof.
  eexists.
  exact (chat_completion_streaming_is_lazy (H := ex_host)
           (T := ex_transport (Ok tt) ex_chunks) ex_self
           "llama3" [ex_message "user" (ContentStr "hi")] None None None None None
           (Some true) None None [] eq_refl).
Defined.

Lemma chat_completion_nonstreaming_call_witness :
  exists params c,
    snd (chat_completion (H := ex_host) (T := ex_transport (Ok tt) ex_chunks) ex_self
           "llama3" [ex_message "user" (ContentStr "hi")] None None None None None
           (Some false) None None [])
      = [c] /\
    (c = ChatCall "http://localhost:10434" params \/
     c = GenerateCall "http://localhost:10434" params) /\
    params !! "model" = Some (VStr "llama3").
Proof.
  built_params ((ChatRequest (chat_request (H := ex_host) "llama3"
                              [ex_message "user" (ContentStr "hi")] None None None
                              (Some false) None None))) params Hp.
  destruct (chat_completion_nonstreaming_call (H := ex_host)
              (T := ex_transport (Ok tt) ex_chunks) ex_self
              "llama3" [ex_message "user" (ContentStr "hi")] None None None None None
              (Some false) None None params [] eq_refl Hp)
    as ((c & Hc & Hkind) & Hmodel).
  by exists params, c.
Defined.

Lemma completion_with_media_fails_witness :
  let e := AssertionError "Ollama does not support media for Completion requests" in
  completion (H := ex_host) (T := ex_transport (Ok tt) ex_chunks) ex_self
    "llama3" (ContentItem (ex_image "cat.png")) None None (Some false) None []
    = (Raise e, []).
Proof.
  intros e.
  apply (completion_with_media_fails (H := ex_host)
           (T := ex_transport (Ok tt) ex_chunks) ex_self
           "llama3" (ContentItem (ex_image "cat.png")) None None (Some false) None
           ("llama3" : @Model ex_types) [] eq_refl).
  intros r Hr. simpl. by rewrite Hr.
Defined.
